(** * Api-Boilerplate: the user-account controllers, the duplicate-key
      error handler and the admin seeding routine

    A shallow embedding of
      - [src/errors/handleDuplicateError.ts]   (module [DuplicateError]),
      - the user controller                    (module [Controller]),
      - [src/DB/index.ts]                      (module [Seed]).

    Handlers are written in a state-and-exception monad over a [World]
    (the two Mongo collections, the wall clock, the entropy consumed by
    random generators and the trace of observable effects).  Effects that
    happened before a [throw] stay in the world, as they do in
    JavaScript: a handler may send its response and throw afterwards. *)

From Stdlib Require Import ZArith List String Ascii Bool Lia DecimalString.
From Stdlib Require Decimal DecimalPos.
Import ListNotations.

Local Open Scope string_scope.
Local Open Scope Z_scope.

(* ===================================================================== *)
(** * JavaScript primitives used by the sources                           *)
(* ===================================================================== *)

Module Js.

(** Values that the sources read as string-or-undefined ([req.body]
    fields, [req.query] fields, optional token claims) are strings; an
    absent value is the empty string.  The sources only test such values
    for truthiness or hand them to a collaborator, and [undefined] and the
    empty string are both falsy. *)
Definition truthy (s : string) : bool := negb (s =? "")%string.

(** [a || b] on strings. *)
Definition or_else (a b : string) : string := if truthy a then a else b.

(** [Number.MAX_SAFE_INTEGER]: up to this magnitude every integer is a
    JavaScript number and integer arithmetic is exact. *)
Definition MAX_SAFE_INTEGER : Z := 2 ^ 53 - 1.

(** [`${n}`] for an integer [n] (decimal digits, a minus sign when
    negative).  This is what a template renders for integers of
    magnitude below 1e21, the safe integers among them; from 1e21 on
    JavaScript uses exponent notation, which this does not model. *)
Definition number_to_string (n : Z) : string :=
  NilZero.string_of_int (Z.to_int n).

(** [Math.floor(a / b)] on integers, [b > 0]. *)
Definition floor_div (a b : Z) : Z := a / b.

(** [Math.ceil(a / b)] on integers, [b <> 0]. *)
Definition ceil_div (a b : Z) : Z := - ((- a) / b).

(** White space skipped by [parseInt] (code units below 256). *)
Definition is_white_space (c : ascii) : bool :=
  let n := N_of_ascii c in
  ((9 <=? n) && (n <=? 13) || (n =? 32) || (n =? 160))%N.

Fixpoint trim_start (s : string) : string :=
  match s with
  | String c r => if is_white_space c then trim_start r else s
  | EmptyString => s
  end.

(** The value of a digit in radix [radix], if it is one. *)
Definition digit_value (radix : Z) (c : ascii) : option Z :=
  let n := Z.of_N (N_of_ascii c) in
  let v :=
    if (48 <=? n) && (n <=? 57) then Some (n - 48)
    else if (97 <=? n) && (n <=? 122) then Some (n - 87)
    else if (65 <=? n) && (n <=? 90) then Some (n - 55)
    else None in
  match v with
  | Some d => if d <? radix then Some d else None
  | None => None
  end.

(** The longest prefix of digits, accumulated left to right; [None] when
    there is no digit at all. *)
Fixpoint digits (radix : Z) (acc : option Z) (s : string) : option Z :=
  match s with
  | String c r =>
      match digit_value radix c with
      | Some d =>
          digits radix
            (Some (match acc with Some a => a * radix + d | None => d end)) r
      | None => acc
      end
  | EmptyString => acc
  end.

(** [parseInt(s)] with no radix argument; [None] is [NaN].  The result
    is the exact value of the digits read.  JavaScript returns that value
    as a number: the two agree while the magnitude is at most
    [MAX_SAFE_INTEGER], beyond it JavaScript rounds to the nearest double
    (and to Infinity past the largest one).  Statements about numbers
    read by [parseInt] are made within the safe range. *)
Definition parseInt (s : string) : option Z :=
  let s := trim_start s in
  let '(sign, s) :=
    match s with
    | String "-" r => (-1, r)
    | String "+" r => (1, r)
    | _ => (1, s)
    end in
  let '(radix, s) :=
    match s with
    | String "0" (String "x" r) => (16, r)
    | String "0" (String "X" r) => (16, r)
    | _ => (10, s)
    end in
  match digits radix None s with
  | Some v => Some (sign * v)
  | None => None
  end.

(** [parseInt(s) || d]: [NaN] and [0] are falsy. *)
Definition parseInt_or (s : string) (d : Z) : Z :=
  match parseInt s with
  | Some v => if v =? 0 then d else v
  | None => d
  end.

End Js.

(* ===================================================================== *)
(** * src/errors/handleDuplicateError.ts                                  *)
(* ===================================================================== *)

Module DuplicateError.

(** A JavaScript string is a sequence of UTF-16 code units. *)
Definition jsstring := list N.

Fixpoint code_units (s : string) : jsstring :=
  match s with
  | String c r => N_of_ascii c :: code_units r
  | EmptyString => []
  end.

Definition quote : N := 34%N.

(** The characters that [.] does not match (no [s] flag): LF, CR, LS, PS. *)
Definition is_line_terminator (c : N) : bool :=
  ((c =? 10) || (c =? 13) || (c =? 8232) || (c =? 8233))%N.

(** The lazy group and the closing quote of the pattern, tried right
    after an opening quote: the lazy star takes one more character each
    time the closing quote is not next, and cannot take a line
    terminator. *)
Fixpoint lazy_group (s : jsstring) : option jsstring :=
  match s with
  | [] => None
  | c :: r =>
      if (c =? quote)%N then Some []
      else if is_line_terminator c then None
      else match lazy_group r with
           | Some g => Some (c :: g)
           | None => None
           end
  end.

(** [err.message.match(regex)]: the leftmost position where the pattern
    (quote, lazy group, quote) matches; the result is capture group 1,
    [None] is [null]. *)
Fixpoint match_quoted (s : jsstring) : option jsstring :=
  match s with
  | [] => None
  | c :: r =>
      if (c =? quote)%N then
        match lazy_group r with
        | Some g => Some g
        | None => match_quoted r
        end
      else match_quoted r
  end.

(** [mongoose.Error.ValidationError], as far as the handler reads it. *)
Record MongooseError := { message : jsstring }.

Record IErrorResponse := {
  success : bool;
  statusCode : Z;
  errorType : string;
  errorMessage : jsstring;
  errorDetails : MongooseError
}.

(** What a call does: it returns, or it throws a [TypeError] (reading
    index 1 of [null]). *)
Inductive result :=
| Returns (r : IErrorResponse)
| ThrowsTypeError.

Definition handlerDuplicateError (err : MongooseError) : result :=
  let matches := match_quoted (message err) in
  match matches with
  | Some group1 =>
      Returns {| success := false;
                 statusCode := 409;
                 errorType := "Duplicate Error";
                 errorMessage := (group1 ++ code_units " is already exists!")%list;
                 errorDetails := err |}
  | None => ThrowsTypeError
  end.

End DuplicateError.

(* ===================================================================== *)
(** * The user controller: data model                                     *)
(* ===================================================================== *)

Module httpStatus.
Definition OK : Z := 200.
Definition CREATED : Z := 201.
Definition NO_CONTENT : Z := 204.
Definition UNAUTHORIZED : Z := 401.
Definition FORBIDDEN : Z := 403.
End httpStatus.

#[local] Set Warnings "-register-all".

(** JSON values carried by a response; [JUndefined] is a property whose
    value is [undefined]. *)
Inductive Json :=
| JUndefined
| JNull
| JBool (b : bool)
| JNum (n : Z)
| JStr (s : string)
| JArr (items : list Json)
| JObj (fields : list (string * Json)).

Definition JOpt (o : option string) : Json :=
  match o with Some s => JStr s | None => JUndefined end.

Module Image.
Record t := { path : string; publicFileURL : string }.
End Image.

Module ManagerInfo.
Record t := {
  type : option string;
  businessAddress : option string;
  websiteLink : option string;
  governMentImage : option Image.t
}.
End ManagerInfo.

(** A document of the user collection.  [managerInfoId] is the referenced
    manager-info document, as [UserModel.populate] attaches it. *)
Module User.
Record t := {
  _id : string;
  name : string;
  email : string;
  password : string;
  role : string;
  isVerified : bool;
  isDeleted : bool;
  image : option Image.t;
  fcmToken : string;
  profile_status : option string;
  phone : option string;
  address : option string;
  ageRange : option string;
  managerInfoId : option ManagerInfo.t;
  isRequest : option string;
  createdAt : Z
}.

Definition with_password (p : string) (u : t) : t :=
  {| _id := _id u; name := name u; email := email u; password := p;
     role := role u; isVerified := isVerified u; isDeleted := isDeleted u;
     image := image u; fcmToken := fcmToken u;
     profile_status := profile_status u; phone := phone u;
     address := address u; ageRange := ageRange u;
     managerInfoId := managerInfoId u; isRequest := isRequest u;
     createdAt := createdAt u |}.

Definition with_fcmToken (f : string) (u : t) : t :=
  {| _id := _id u; name := name u; email := email u; password := password u;
     role := role u; isVerified := isVerified u; isDeleted := isDeleted u;
     image := image u; fcmToken := f;
     profile_status := profile_status u; phone := phone u;
     address := address u; ageRange := ageRange u;
     managerInfoId := managerInfoId u; isRequest := isRequest u;
     createdAt := createdAt u |}.

Definition with_isDeleted (d : bool) (u : t) : t :=
  {| _id := _id u; name := name u; email := email u; password := password u;
     role := role u; isVerified := isVerified u; isDeleted := d;
     image := image u; fcmToken := fcmToken u;
     profile_status := profile_status u; phone := phone u;
     address := address u; ageRange := ageRange u;
     managerInfoId := managerInfoId u; isRequest := isRequest u;
     createdAt := createdAt u |}.

Definition with_isVerified (v : bool) (u : t) : t :=
  {| _id := _id u; name := name u; email := email u; password := password u;
     role := role u; isVerified := v; isDeleted := isDeleted u;
     image := image u; fcmToken := fcmToken u;
     profile_status := profile_status u; phone := phone u;
     address := address u; ageRange := ageRange u;
     managerInfoId := managerInfoId u; isRequest := isRequest u;
     createdAt := createdAt u |}.

(** [user?.image?.publicFileURL] *)
Definition image_url (u : t) : option string :=
  match image u with Some i => Some (Image.publicFileURL i) | None => None end.
End User.

(** A document of the OTP collection; [expiresAt] in milliseconds since
    the epoch. *)
Module OTP.
Record t := { email : string; otp : string; expiresAt : Z }.
End OTP.

(** The claims of a token ([IUserPayload]); a register token carries the
    email only. *)
Module Payload.
Record t := { id : string; email : string; role : string }.
End Payload.

Module Body.
Record t := {
  email : string;
  password : string;
  fcmToken : string;
  oldPassword : string;
  newPassword : string
}.
End Body.

Module Query.
Record t := {
  id : string;
  page : string;
  limit : string;
  date : string;
  name : string;
  email : string;
  role : string;
  requestStatus : string
}.
End Query.

(** The part of an Express request the handlers read: [req.body],
    [req.query], [req.headers.authorization] and [req.user], which the
    authentication middleware sets. *)
Module Request.
Record t := {
  body : Body.t;
  query : Query.t;
  authorization : string;
  user : option Payload.t
}.
End Request.

Module Pagination.
Record t := {
  totalPage : Z;
  currentPage : Z;
  prevPage : Z;
  nextPage : Z;
  limit : Z;
  totalItem : Z
}.
End Pagination.

(** The argument of [sendResponse]. *)
Module Response.
Record t := {
  statusCode : Z;
  success : bool;
  message : string;
  data : Json;
  pagination : option Pagination.t
}.
End Response.

Inductive JsError :=
| ApiError (statusCode : Z) (message : string)
| Error (message : string)
| TypeError (message : string).

Definition error_message (e : JsError) : string :=
  match e with ApiError _ m | Error m | TypeError m => m end.

(** [error.statusCode || 500] *)
Definition statusCode_or_500 (e : JsError) : Z :=
  match e with
  | ApiError c _ => if c =? 0 then 500 else c
  | _ => 500
  end.

Inductive EmailKind := ResendOTPEmail | OTPEmailVerification | ResetOTPEmail.

Module Email.
Record t := { kind : EmailKind; recipient : string; otp : string; name : string }.
End Email.

(** Observable effects, in the order they happen. *)
Inductive Event :=
| Responded (r : Response.t)
| SentError (e : JsError)
| EmailDispatched (m : Email.t)
| UserSaved (u : User.t)
| UserCreated (u : User.t)
| UserDeleted (id : string)
| OtpSaved (r : OTP.t).

Record World := {
  users : list User.t;
  otps : list OTP.t;
  clock : Z;
  entropy : nat;
  events : list Event;
  console : list string
}.

Definition set_users (us : list User.t) (w : World) : World :=
  {| users := us; otps := otps w; clock := clock w; entropy := entropy w;
     events := events w; console := console w |}.

Definition set_otps (os : list OTP.t) (w : World) : World :=
  {| users := users w; otps := os; clock := clock w; entropy := entropy w;
     events := events w; console := console w |}.

Definition emit (e : Event) (w : World) : World :=
  {| users := users w; otps := otps w; clock := clock w; entropy := entropy w;
     events := (events w ++ [e])%list; console := console w |}.

Definition print (s : string) (w : World) : World :=
  {| users := users w; otps := otps w; clock := clock w; entropy := entropy w;
     events := events w; console := (console w ++ [s])%list |}.

Definition draw (w : World) : World :=
  {| users := users w; otps := otps w; clock := clock w;
     entropy := S (entropy w); events := events w; console := console w |}.

(** The responses sent so far. *)
Fixpoint responses (es : list Event) : list Response.t :=
  match es with
  | [] => []
  | Responded r :: es => r :: responses es
  | _ :: es => responses es
  end.

(** The emails handed to the mail transport so far. *)
Fixpoint emails (es : list Event) : list Email.t :=
  match es with
  | [] => []
  | EmailDispatched m :: es => m :: emails es
  | _ :: es => emails es
  end.

(* ===================================================================== *)
(** * The monad of handlers                                               *)
(* ===================================================================== *)

Inductive Outcome (A : Type) :=
| Returned (a : A)
| Thrown (e : JsError).
Arguments Returned {A} a.
Arguments Thrown {A} e.

Definition M (A : Type) : Type := World -> Outcome A * World.

Definition ret {A} (a : A) : M A := fun w => (Returned a, w).

Definition throw {A} (e : JsError) : M A := fun w => (Thrown e, w).

Definition bind {A B} (m : M A) (k : A -> M B) : M B :=
  fun w =>
    match m w with
    | (Returned a, w') => k a w'
    | (Thrown e, w') => (Thrown e, w')
    end.

Definition lift {A} (o : Outcome A) : M A := fun w => (o, w).

Definition modify (f : World -> World) : M unit := fun w => (Returned tt, f w).

Definition gets {A} (f : World -> A) : M A := fun w => (Returned (f w), w).

Notation "x <- m ;; k" := (bind m (fun x => k))
  (at level 61, m at next level, right associativity).
Notation "m ;; k" := (bind m (fun _ => k))
  (at level 61, right associativity).

(** [try { m } catch (error) { throw new ApiError(error.statusCode || 500,
    error.message || fallback) }] *)
Definition rewrap {A} (fallback : string) (m : M A) : M A :=
  fun w =>
    match m w with
    | (Thrown e, w') =>
        (Thrown (ApiError (statusCode_or_500 e)
                          (Js.or_else (error_message e) fallback)), w')
    | r => r
    end.

(** [catchAsync] hands whatever the handler throws to the error
    middleware: the outcome of a handler is its outcome under
    [catchAsync]. *)
Definition sendResponse (r : Response.t) : M unit := modify (emit (Responded r)).

Definition sendError (e : JsError) : M unit := modify (emit (SentError e)).

(** [new Date()], as milliseconds. *)
Definition new_Date : M Z := gets clock.

(* ===================================================================== *)
(** * The two collections                                                 *)
(* ===================================================================== *)

(** [UserModel.findOne({ email })] *)
Definition UserModel_findOne (email : string) : M (option User.t) :=
  gets (fun w => find (fun u => (User.email u =? email)%string) (users w)).

(** [OTPModel.findOne({ email })] *)
Definition OTPModel_findOne (email : string) : M (option OTP.t) :=
  gets (fun w => find (fun r => (OTP.email r =? email)%string) (otps w)).

(** Replace the first document that has the identifier of [u]. *)
Fixpoint replace_by_id (u : User.t) (us : list User.t) : list User.t :=
  match us with
  | [] => []
  | v :: us =>
      if (User._id v =? User._id u)%string then u :: us
      else v :: replace_by_id u us
  end.

(** [user.save()] on a document read from the collection. *)
Definition save (u : User.t) : M unit :=
  modify (fun w => emit (UserSaved u) (set_users (replace_by_id u (users w)) w)).

(** Update the first record of the email, or append one. *)
Fixpoint upsert (r : OTP.t) (os : list OTP.t) : list OTP.t :=
  match os with
  | [] => [r]
  | o :: os =>
      if (OTP.email o =? OTP.email r)%string then r :: os
      else o :: upsert r os
  end.

(* ===================================================================== *)
(** * The user controller                                                 *)
(* ===================================================================== *)

(** ** Collaborators that are not part of the sources

    The token utility, the password-hashing primitive, the lock
    middleware, the random generator, the mail transport and the list
    filter are used through their call contract only. *)
Module Services.
Record t := {
  (** [utils/JwtToken]: verification and signing of tokens. *)
  verifyToken : string -> Outcome Payload.t;
  generateToken : Payload.t -> string;
  generateRegisterToken : string -> string;
  (** [argon2.verify(hash, plain)] and [argon2.hash(plain)]; the salt of
      a hash is drawn from the entropy of the world. *)
  argon2_verify : string -> string -> Outcome bool;
  argon2_hash : nat -> string -> string;
  (** [middlewares/lock]: throws when the account is locked. *)
  validateUserLockStatus : User.t -> Outcome unit;
  (** The random code of [generateOTP], by the entropy drawn. *)
  otp_code : nat -> string;
  (** The mail transport: what sending a message ends in. *)
  deliver : Email.t -> Outcome unit;
  (** The lifetime [saveOTP] gives a code, in milliseconds. *)
  OTP_TTL : Z;
  (** The filter of [getUserList], over the query parameters date, name,
      email, role and requestStatus. *)
  matchesFilters : Query.t -> User.t -> bool;
  (** The user schema of user.model: the identifier given to a new
      document, by the entropy drawn, and the defaults of the fields a
      new document does not set. *)
  objectId : nat -> string;
  schemaDefaults : User.t
}.
End Services.

Module Controller.

Section Handlers.

Variable services : Services.t.

Abbreviation verifyToken := (Services.verifyToken services).
Abbreviation generateToken := (Services.generateToken services).
Abbreviation generateRegisterToken := (Services.generateRegisterToken services).
Abbreviation argon2_verify := (Services.argon2_verify services).
Abbreviation argon2_hash := (Services.argon2_hash services).
Abbreviation validateUserLockStatus := (Services.validateUserLockStatus services).
Abbreviation otp_code := (Services.otp_code services).
Abbreviation deliver := (Services.deliver services).
Abbreviation OTP_TTL := (Services.OTP_TTL services).
Abbreviation matchesFilters := (Services.matchesFilters services).

(** ** Helpers of user.utils and user.service *)

(** Modelled from the spec: [findUserByEmail] is in user.utils, which is
    not among the sources.  The User Repository finds a user record by
    email; soft-deleted records are found too ([loginUser] tests
    [isDeleted] on the result). *)
Definition findUserByEmail (email : string) : M (option User.t) :=
  UserModel_findOne email.

(** Modelled from the spec: [findUserById] is in user.utils, which is not
    among the sources.  The User Repository finds a user record by id. *)
Definition findUserById (id : string) : M (option User.t) :=
  gets (fun w => find (fun u => (User._id u =? id)%string) (users w)).

(** Modelled from the spec: [generateOTP] is in user.utils, which is not
    among the sources.  It produces a fresh one-time code. *)
Definition generateOTP : M string :=
  fun w => (Returned (otp_code (entropy w)), draw w).

(** Modelled from the spec: [hashPassword] is in user.utils, which is not
    among the sources.  It wraps the password-hashing primitive. *)
Definition hashPassword (plain : string) : M string :=
  fun w => (Returned (argon2_hash (entropy w) plain), draw w).

(** Modelled from the spec: [saveOTP] is in user.utils, which is not
    among the sources.  The OTP record is keyed by email with upsert
    semantics, and holds the code and an absolute expiry timestamp. *)
Definition saveOTP (email otp : string) : M unit :=
  fun w =>
    let r := {| OTP.email := email; OTP.otp := otp;
                OTP.expiresAt := clock w + OTP_TTL |} in
    (Returned tt, emit (OtpSaved r) (set_otps (upsert r (otps w)) w)).

(** Modelled from the spec: [userDelete] is in user.service, which is not
    among the sources.  Deletion flips [isDeleted] on the record rather
    than removing it. *)
Fixpoint mark_deleted (id : string) (us : list User.t) : list User.t :=
  match us with
  | [] => []
  | v :: us =>
      if (User._id v =? id)%string then User.with_isDeleted true v :: us
      else v :: mark_deleted id us
  end.

Definition userDelete (id email : string) : M unit :=
  modify (fun w => emit (UserDeleted id) (set_users (mark_deleted id (users w)) w)).

(** Modelled from the spec: [getUserList] is in user.service, which is
    not among the sources.  A paginated filtered query that returns the
    page of users, the total count and the total pages. *)
Definition getUserList (skip limit : Z) (q : Query.t)
  : M (list User.t * Z * Z) :=
  gets (fun w =>
    let matching := filter (matchesFilters q) (users w) in
    let totalUsers := Z.of_nat (List.length matching) in
    (firstn (Z.to_nat limit) (skipn (Z.to_nat skip) matching),
     totalUsers,
     Js.ceil_div totalUsers limit)).

(** An email whose promise is awaited: a failure is thrown. *)
Definition send_awaited (m : Email.t) : M unit :=
  modify (emit (EmailDispatched m)) ;; lift (deliver m).

(** An email whose promise is left to its [then] and [catch] callbacks,
    which only write to the console. *)
Definition send_detached (m : Email.t) (on_then on_catch : string) : M unit :=
  modify (emit (EmailDispatched m)) ;;
  modify (print (match deliver m with
                 | Returned _ => on_then
                 | Thrown _ => on_catch
                 end)).

(** [Math.floor((otpRecord.expiresAt.getTime() - now.getTime()) / 1000)] *)
Definition remainingTime (otpRecord : OTP.t) (now : Z) : Z :=
  Js.floor_div (OTP.expiresAt otpRecord - now) 1000.

Definition cooldown_message (remainingTime : Z) : string :=
  "You can't request another OTP before "
    ++ Js.number_to_string remainingTime ++ " seconds.".

(** No unexpired OTP record is stored for the email: the cooldown of
    [resendOTP] and [forgotPassword] is over. *)
Definition no_cooldown (email : string) (w : World) : Prop :=
  forall r, find (fun o => (OTP.email o =? email)%string) (otps w) = Some r ->
            OTP.expiresAt r <= clock w.

(** ** resendOTP *)

Definition resendOTP (req : Request.t) : M unit :=
  match verifyToken (Request.authorization req) with
  | Thrown _ => throw (ApiError httpStatus.UNAUTHORIZED "Invalid token")
  | Returned decoded =>
      let email := Payload.email decoded in
      now <- new_Date ;;
      otpRecord <- OTPModel_findOne email ;;
      match otpRecord with
      | Some r =>
          if OTP.expiresAt r >? now then
            throw (ApiError httpStatus.FORBIDDEN
                     (cooldown_message (remainingTime r now)))
          else ret tt
      | None => ret tt
      end ;;
      sendResponse {| Response.statusCode := httpStatus.OK;
                      Response.success := true;
                      Response.message := "A new OTP has been sent to your email.";
                      Response.data := JNull;
                      Response.pagination := None |} ;;
      otp <- generateOTP ;;
      send_detached {| Email.kind := ResendOTPEmail; Email.recipient := email;
                       Email.otp := otp; Email.name := "" |}
                    "Email Send" "Email not send" ;;
      saveOTP email otp
  end.

(** ** loginUser *)

(** The response of the unverified branch of [loginUser]. *)
Definition unverified_response (user : User.t) (token : string) : Response.t :=
  {| Response.statusCode := 401;
     Response.success := false;
     Response.message :=
       "We've sent an OTP to your email to verify your profile.";
     Response.data := JObj [("role", JStr (User.role user));
                            ("token", JStr token)];
     Response.pagination := None |}.

(** [generateToken({ id: userId, email: user.email, role: user.role })] *)
Definition session_token (user : User.t) : string :=
  generateToken {| Payload.id := User._id user;
                   Payload.email := User.email user;
                   Payload.role := User.role user |}.

Definition loginUser (req : Request.t) : M unit :=
  let email := Body.email (Request.body req) in
  let password := Body.password (Request.body req) in
  let fcmToken := Body.fcmToken (Request.body req) in
  user <- findUserByEmail email ;;
  match user with
  | None => throw (ApiError 404 "This account does not exist.")
  | Some user =>
      if User.isDeleted user then
        throw (ApiError 404 "your account is deleted.")
      else
        lift (validateUserLockStatus user) ;;
        let token := session_token user in
        if negb (User.isVerified user) then
          sendResponse (unverified_response user token) ;;
          let name := User.name user in
          otp <- generateOTP ;;
          send_detached {| Email.kind := OTPEmailVerification;
                           Email.recipient := email;
                           Email.otp := otp; Email.name := name |}
                        "Email sent" "Error sending OTP email:" ;;
          saveOTP email otp
        else
          isPasswordValid <- lift (argon2_verify (User.password user) password) ;;
          if negb isPasswordValid then throw (ApiError 401 "Wrong password!")
          else
            sendResponse
              {| Response.statusCode := httpStatus.OK;
                 Response.success := true;
                 Response.message := "Login complete!";
                 Response.data :=
                   JObj [("user",
                          JObj [("_id", JStr (User._id user));
                                ("name", JStr (User.name user));
                                ("email", JStr (User.email user));
                                ("image",
                                 JStr (match User.image_url user with
                                       | Some url => Js.or_else url ""
                                       | None => ""
                                       end));
                                ("role", JStr (User.role user));
                                ("profile_status",
                                 JOpt (User.profile_status user))]);
                         ("token", JStr token)];
                 Response.pagination := None |} ;;
            save (User.with_fcmToken fcmToken user)
  end.

(** ** forgotPassword *)

Definition forgotPassword (req : Request.t) : M unit :=
  let email := Body.email (Request.body req) in
  if negb (Js.truthy email) then
    throw (ApiError 400 "Please provide an email.")
  else
    user <- findUserByEmail email ;;
    match user with
    | None => throw (ApiError 404 "This account does not exist.")
    | Some user =>
        now <- new_Date ;;
        otpRecord <- OTPModel_findOne email ;;
        match otpRecord with
        | Some r =>
            if OTP.expiresAt r >? now then
              throw (ApiError 403 (cooldown_message (remainingTime r now)))
            else ret tt
        | None => ret tt
        end ;;
        let token := generateRegisterToken email in
        sendResponse {| Response.statusCode := httpStatus.OK;
                        Response.success := true;
                        Response.message := "OTP sent to your email. Please check!";
                        Response.data := JObj [("token", JStr token)];
                        Response.pagination := None |} ;;
        otp <- generateOTP ;;
        send_awaited {| Email.kind := ResetOTPEmail; Email.recipient := email;
                        Email.otp := otp; Email.name := User.name user |} ;;
        saveOTP email otp
    end.

(** ** resetPassword *)

Definition resetPassword (req : Request.t) : M unit :=
  match verifyToken (Request.authorization req) with
  | Thrown error => sendError error
  | Returned decoded =>
      if negb (Js.truthy (Payload.role decoded)) then
        throw (ApiError 401 "Invalid token. Please try again.")
      else
        let email := Payload.email decoded in
        let password := Body.password (Request.body req) in
        if negb (Js.truthy password) then
          throw (ApiError 400 "Please provide  password ")
        else
          sendResponse {| Response.statusCode := httpStatus.OK;
                          Response.success := true;
                          Response.message := "Password reset successfully.";
                          Response.data := JNull;
                          Response.pagination := None |} ;;
          user <- findUserByEmail email ;;
          match user with
          | None =>
              throw (ApiError 404
                       "User not found. Are you attempting something sneaky?")
          | Some user =>
              newPassword <- hashPassword password ;;
              save (User.with_password newPassword user)
          end
  end.

(** ** deleteUser *)

(** [(req.user as IUserPayload)?.id !== id] *)
Definition user_id_differs (req : Request.t) (id : string) : bool :=
  match Request.user req with
  | Some p => negb (Payload.id p =? id)%string
  | None => true
  end.

(** [(req.user as IUserPayload)?.role !== "admin"] *)
Definition user_role_not_admin (req : Request.t) : bool :=
  match Request.user req with
  | Some p => negb (Payload.role p =? "admin")%string
  | None => true
  end.

Definition deleteUser (req : Request.t) : M unit :=
  rewrap "Unexpected error occurred while deleting the user."
    (let id := Query.id (Request.query req) in
     deleteableuser <- findUserById id ;;
     match deleteableuser with
     | None => throw (ApiError 404 "User not found.")
     | Some deleteableuser =>
         if User.isDeleted deleteableuser then
           throw (ApiError 404 "This account is already deleted.")
         else if user_id_differs req id || user_role_not_admin req then
           throw (ApiError 403
                    "You cannot delete this account. Please contact support")
         else
           userDelete id (User.email deleteableuser) ;;
           sendResponse {| Response.statusCode := httpStatus.OK;
                           Response.success := true;
                           Response.message := "Account deleted successfully";
                           Response.data := JNull;
                           Response.pagination := None |}
     end).

(** ** changePassword *)

Definition changePassword (req : Request.t) : M unit :=
  rewrap "Failed to change password."
    (let oldPassword := Body.oldPassword (Request.body req) in
     let newPassword := Body.newPassword (Request.body req) in
     if negb (Js.truthy oldPassword) || negb (Js.truthy newPassword) then
       throw (Error "Please provide both old password and new password.")
     else
       match Request.user req with
       | None =>
           throw (TypeError
                    "Cannot read properties of undefined (reading 'email')")
       | Some decoded =>
           let email := Payload.email decoded in
           user <- findUserByEmail email ;;
           match user with
           | None => throw (Error "User not found.")
           | Some user =>
               isMatch <- lift (argon2_verify (User.password user) oldPassword) ;;
               if negb isMatch then
                 throw (ApiError httpStatus.UNAUTHORIZED
                          "Old password is incorrect.")
               else
                 hashedNewPassword <- hashPassword newPassword ;;
                 save (User.with_password hashedNewPassword user) ;;
                 sendResponse
                   {| Response.statusCode := httpStatus.OK;
                      Response.success := true;
                      Response.message :=
                        "You have successfully changed your password.";
                      Response.data := JNull;
                      Response.pagination := None |}
           end
       end).

(** ** adminloginUser *)

Definition adminloginUser (req : Request.t) : M unit :=
  rewrap "An error occurred during admin login."
    (let email := Body.email (Request.body req) in
     let password := Body.password (Request.body req) in
     user <- findUserByEmail email ;;
     match user with
     | None => throw (ApiError 404 "This account does not exist.")
     | Some user =>
         if negb (User.role user =? "admin")%string then
           throw (ApiError 403 "Only admins can login.")
         else
           isPasswordValid <- lift (argon2_verify (User.password user) password) ;;
           if negb isPasswordValid then throw (ApiError 401 "Wrong password!")
           else
             let token := session_token user in
             sendResponse
               {| Response.statusCode := httpStatus.OK;
                  Response.success := true;
                  Response.message := "Login complete!";
                  Response.data :=
                    JObj [("user",
                           JObj [("id", JStr (User._id user));
                                 ("name", JStr (User.name user));
                                 ("email", JStr (User.email user));
                                 ("role", JStr (User.role user));
                                 ("image", JOpt (User.image_url user))]);
                          ("token", JStr token)];
                  Response.pagination := None |}
     end).

(** ** getAllUsers *)

(** One entry of the response data. *)
Definition list_entry (user : User.t) : Json :=
  JObj [("_id", JStr (User._id user));
        ("image", JOpt (User.image_url user));
        ("name", JStr (User.name user));
        ("email", JStr (User.email user));
        ("role", JStr (User.role user));
        ("phone", JOpt (User.phone user));
        ("address", JOpt (User.address user));
        ("managerInfo",
         match User.managerInfoId user with
         | Some info =>
             JObj [("type", JOpt (ManagerInfo.type info));
                   ("businessAddress", JOpt (ManagerInfo.businessAddress info));
                   ("websiteLink", JOpt (ManagerInfo.websiteLink info));
                   ("governMentImage",
                    JOpt (match ManagerInfo.governMentImage info with
                          | Some i => Some (Image.publicFileURL i)
                          | None => None
                          end));
                   ("isRequest", JOpt (User.isRequest user))]
         | None => JNull
         end);
        ("createdAt", JNum (User.createdAt user))].

(** [x ?? 1] *)
Definition or_one (x : option Z) : Z :=
  match x with Some v => v | None => 1 end.

Definition getAllUsers (req : Request.t) : M unit :=
  match verifyToken (Request.authorization req) with
  | Thrown error => sendError error
  | Returned decoded =>
      let adminId := Payload.id decoded in
      user <- findUserById adminId ;;
      match user with
      | None => throw (ApiError 404 "This admin account does not exist.")
      | Some _ =>
          let page := Js.parseInt_or (Query.page (Request.query req)) 1 in
          let limit := Js.parseInt_or (Query.limit (Request.query req)) 10 in
          let skip := (page - 1) * limit in
          rewrap "Failed to retrieve users."
            (r <- getUserList skip limit (Request.query req) ;;
             let '(users, totalUsers, totalPages) := r in
             let prevPage := if page >? 1 then Some (page - 1) else None in
             let nextPage := if page <? totalPages then Some (page + 1) else None in
             if (List.length users =? 0)%nat then
               sendResponse {| Response.statusCode := httpStatus.NO_CONTENT;
                               Response.success := true;
                               Response.message :=
                                 "No user found based on your search.";
                               Response.data := JArr [];
                               Response.pagination := None |}
             else
               let usersWithManagerInfo := users in
               let responseData := map list_entry usersWithManagerInfo in
               sendResponse
                 {| Response.statusCode := httpStatus.OK;
                    Response.success := true;
                    Response.message := "User list retrieved successfully";
                    Response.data := JArr responseData;
                    Response.pagination :=
                      Some {| Pagination.totalPage := totalPages;
                              Pagination.currentPage := page;
                              Pagination.prevPage := or_one prevPage;
                              Pagination.nextPage := or_one nextPage;
                              Pagination.limit := limit;
                              Pagination.totalItem := totalUsers |} |})
      end
  end.

(** ** Properties of the world that the laws of the handlers refer to *)

(** The hash of a password verifies that password. *)
Definition hash_verifies : Prop :=
  forall salt plain, argon2_verify (argon2_hash salt plain) plain = Returned true.

(** What identifies an account: no handler but [verifyOTP] writes any of
    these fields. *)
Definition account (u : User.t) : string * string * string * bool :=
  (User._id u, User.email u, User.role u, User.isVerified u).

(** ** verifyOTP *)

(** What [verifyOTPService] resolves to. *)
Record VerifiedInfo := {
  info_token : string;
  info_name : string;
  info_email : string;
  info_phone : option string
}.

(** [verifyOTPService] of user.service, which is not among the sources:
    the handler is stated over whatever it does with the submitted code
    and the token. *)
Variable verifyOTPService : string -> string -> M VerifiedInfo.

(** The handler; [otp] is [req.body.otp].  The whole body is inside the
    [try], and the [catch] throws a 500 with the message of the error. *)
Definition verifyOTP (otp : string) (req : Request.t) : M unit :=
  fun w =>
    match
      (info <- verifyOTPService otp (Request.authorization req) ;;
       sendResponse
         {| Response.statusCode := httpStatus.CREATED;
            Response.success := true;
            Response.message := "OTP Verified successfully.";
            Response.data :=
              JObj [("name", JStr (info_name info));
                    ("email", JStr (info_email info));
                    ("phone", JOpt (info_phone info));
                    ("token", JStr (info_token info))];
            Response.pagination := None |} ;;
       user <- UserModel_findOne (info_email info) ;;
       match user with
       | None =>
           throw (TypeError
                    "Cannot read properties of null (reading 'isVerified')")
       | Some user =>
           if negb (User.isVerified user) then
             save (User.with_isVerified true user)
           else ret tt
       end) w
    with
    | (Thrown error, w') =>
        (Thrown (ApiError 500
                   (Js.or_else (error_message error) "Failed to verify otp")),
         w')
    | r => r
    end.

End Handlers.

End Controller.

(* ===================================================================== *)
(** * src/DB/index.ts                                                     *)
(* ===================================================================== *)

Module Seed.

Module AdminData.
Record t := {
  name : string;
  email : string;
  password : string;
  role : string;
  isDeleted : bool
}.
End AdminData.

Definition admin : AdminData.t :=
  {| AdminData.name := "Bienvenue";
     AdminData.email := "showershareny@gmail.com";
     AdminData.password := "1qazxsw2";
     AdminData.role := "admin";
     AdminData.isDeleted := false |}.

Definition admin2 : AdminData.t :=
  {| AdminData.name := "admin";
     AdminData.email := "admin@gmail.com";
     AdminData.password := "1qazxsw2";
     AdminData.role := "admin";
     AdminData.isDeleted := false |}.

(** The first stored document that has the email. *)
Definition stored (email : string) (us : list User.t) : option User.t :=
  find (fun u => (User.email u =? email)%string) us.

Section Seeding.

Variable services : Services.t.

(** The document [UserModel.create] stores for the fields it is given:
    a fresh identifier, the given fields, and the schema defaults for
    the others. *)
Definition new_document (id : string) (d : AdminData.t) : User.t :=
  let dflt := Services.schemaDefaults services in
  {| User._id := id;
     User.name := AdminData.name d;
     User.email := AdminData.email d;
     User.password := AdminData.password d;
     User.role := AdminData.role d;
     User.isVerified := User.isVerified dflt;
     User.isDeleted := AdminData.isDeleted d;
     User.image := User.image dflt;
     User.fcmToken := User.fcmToken dflt;
     User.profile_status := User.profile_status dflt;
     User.phone := User.phone dflt;
     User.address := User.address dflt;
     User.ageRange := User.ageRange dflt;
     User.managerInfoId := User.managerInfoId dflt;
     User.isRequest := User.isRequest dflt;
     User.createdAt := User.createdAt dflt |}.

(** Modelled from the spec: the user schema (user.model) is not among the
    sources.  [UserModel.create] appends a document to the collection;
    the email is unique, so a document whose email is already stored is
    refused with a duplicate-key error. *)
Definition UserModel_create (d : AdminData.t) : M unit :=
  fun w =>
    match find (fun u => (User.email u =? AdminData.email d)%string) (users w) with
    | Some _ => (Thrown (Error "E11000 duplicate key error"), w)
    | None =>
        let u := new_document (Services.objectId services (entropy w)) d in
        (Returned tt,
         emit (UserCreated u) (set_users (users w ++ [u])%list (draw w)))
    end.

Definition with_password (p : string) (d : AdminData.t) : AdminData.t :=
  {| AdminData.name := AdminData.name d;
     AdminData.email := AdminData.email d;
     AdminData.password := p;
     AdminData.role := AdminData.role d;
     AdminData.isDeleted := AdminData.isDeleted d |}.

(** The body of the loop of [seedSuperAdmin]. *)
Definition seedAdmin (adminData : AdminData.t) : M unit :=
  isAdminExists <- UserModel_findOne (AdminData.email adminData) ;;
  match isAdminExists with
  | None =>
      hashedPassword <-
        Controller.hashPassword services (AdminData.password adminData) ;;
      let adminWithHashedPassword := with_password hashedPassword adminData in
      UserModel_create adminWithHashedPassword ;;
      modify (print ("Admin created: " ++ AdminData.email adminData))
  | Some _ =>
      modify (print ("Admin already exists: " ++ AdminData.email adminData))
  end.

(** [for (const x of xs) { await f(x) }] *)
Fixpoint for_of {A} (xs : list A) (f : A -> M unit) : M unit :=
  match xs with
  | [] => ret tt
  | x :: xs => f x ;; for_of xs f
  end.

Definition seedSuperAdmin : M unit :=
  let admins := [admin; admin2] in
  for_of admins seedAdmin.

(** A document that the routine makes for the seed admin [d]: the seed
    data with the hash of the seed password, under a fresh identifier. *)
Definition seeded_from (d : AdminData.t) (u : User.t) : Prop :=
  exists salt id,
    u = new_document id
          (with_password
             (Services.argon2_hash services salt (AdminData.password d)) d).

End Seeding.

(** ** The settings documents *)

(** A document of the privacy, terms or about collection. *)
Record SettingsDoc := { description : string }.

Record Settings := {
  privacy : list SettingsDoc;
  terms : list SettingsDoc;
  about : list SettingsDoc
}.

Definition dummyPrivacy : SettingsDoc :=
  {| description := "dummy privacy and policy" |}.
Definition dummyAbout : SettingsDoc :=
  {| description := "dummy about us " |}.
Definition dummyTerms : SettingsDoc :=
  {| description := "dummy terms and conditions" |}.

(** [Model.findOne()] with no filter: the first document, if any. *)
Definition findOne (docs : list SettingsDoc) : option SettingsDoc :=
  match docs with
  | d :: _ => Some d
  | [] => None
  end.

(** [Model.create(doc)] *)
Definition create (doc : SettingsDoc) (docs : list SettingsDoc)
  : list SettingsDoc := (docs ++ [doc])%list.

Definition seedPrivacy (s : Settings) : Settings :=
  match findOne (privacy s) with
  | None => {| privacy := create dummyPrivacy (privacy s);
               terms := terms s; about := about s |}
  | Some _ => s
  end.

Definition seedTerms (s : Settings) : Settings :=
  match findOne (terms s) with
  | None => {| privacy := privacy s;
               terms := create dummyTerms (terms s); about := about s |}
  | Some _ => s
  end.

Definition seedAbout (s : Settings) : Settings :=
  match findOne (about s) with
  | None => {| privacy := privacy s; terms := terms s;
               about := create dummyAbout (about s) |}
  | Some _ => s
  end.

End Seed.

(* ===================================================================== *)
(** * A concrete deployment, for running the handlers                     *)
(* ===================================================================== *)

Module Demo.

Definition ada : User.t :=
  {| User._id := "u1"; User.name := "Ada"; User.email := "ada@example.com";
     User.password := "argon2$secret"; User.role := "admin";
     User.isVerified := true; User.isDeleted := false;
     User.image := None; User.fcmToken := "";
     User.profile_status := None; User.phone := None; User.address := None;
     User.ageRange := None; User.managerInfoId := None;
     User.isRequest := None; User.createdAt := 0 |}.

Definition registerPayload : Payload.t :=
  {| Payload.id := ""; Payload.email := "ada@example.com"; Payload.role := "" |}.

Definition sessionPayload : Payload.t :=
  {| Payload.id := "u1"; Payload.email := "ada@example.com";
     Payload.role := "admin" |}.

Definition ghostPayload : Payload.t :=
  {| Payload.id := "u9"; Payload.email := "ghost@example.com";
     Payload.role := "user" |}.

Definition services : Services.t :=
  {| Services.verifyToken := fun token =>
       if (token =? "register-token")%string then Returned registerPayload
       else if (token =? "session-token")%string then Returned sessionPayload
       else if (token =? "ghost-token")%string then Returned ghostPayload
       else Thrown (Error "jwt malformed");
     Services.generateToken := fun p =>
       "jwt:" ++ Payload.id p ++ ":" ++ Payload.email p ++ ":" ++ Payload.role p;
     Services.generateRegisterToken := fun email => "jwt:" ++ email;
     Services.argon2_verify := fun hash plain =>
       Returned (hash =? "argon2$" ++ plain)%string;
     Services.argon2_hash := fun _ plain => "argon2$" ++ plain;
     Services.validateUserLockStatus := fun _ => Returned tt;
     Services.otp_code := fun n => "48" ++ Js.number_to_string (Z.of_nat n);
     Services.deliver := fun _ => Returned tt;
     Services.OTP_TTL := 60000;
     Services.matchesFilters := fun q u =>
       if (Query.role q =? "")%string then true
       else (User.role u =? Query.role q)%string;
     Services.objectId := fun n => "oid" ++ Js.number_to_string (Z.of_nat n);
     Services.schemaDefaults :=
       {| User._id := ""; User.name := ""; User.email := "";
          User.password := ""; User.role := "user";
          User.isVerified := false; User.isDeleted := false;
          User.image := None; User.fcmToken := "";
          User.profile_status := None; User.phone := None;
          User.address := None; User.ageRange := None;
          User.managerInfoId := None; User.isRequest := None;
          User.createdAt := 0 |} |}.

Definition body (email password : string) : Body.t :=
  {| Body.email := email; Body.password := password; Body.fcmToken := "";
     Body.oldPassword := ""; Body.newPassword := "" |}.

Definition passwords (oldPassword newPassword : string) : Body.t :=
  {| Body.email := ""; Body.password := ""; Body.fcmToken := "";
     Body.oldPassword := oldPassword; Body.newPassword := newPassword |}.

Definition query (id page limit role : string) : Query.t :=
  {| Query.id := id; Query.page := page; Query.limit := limit;
     Query.date := ""; Query.name := ""; Query.email := ""; Query.role := role;
     Query.requestStatus := "" |}.

Definition request (b : Body.t) (q : Query.t) (authorization : string)
    (user : option Payload.t) : Request.t :=
  {| Request.body := b; Request.query := q;
     Request.authorization := authorization; Request.user := user |}.

Definition world (us : list User.t) (os : list OTP.t) (now : Z) : World :=
  {| users := us; otps := os; clock := now; entropy := 0%nat;
     events := []; console := [] |}.

(** The user with identifier and email number [n]. *)
Definition member (n : nat) : User.t :=
  {| User._id := "m" ++ Js.number_to_string (Z.of_nat n);
     User.name := "Member";
     User.email := "m" ++ Js.number_to_string (Z.of_nat n) ++ "@example.com";
     User.password := "argon2$pw"; User.role := "user";
     User.isVerified := true; User.isDeleted := false;
     User.image := None; User.fcmToken := "";
     User.profile_status := None; User.phone := None; User.address := None;
     User.ageRange := None; User.managerInfoId := None;
     User.isRequest := None; User.createdAt := Z.of_nat n |}.

(** Ada after a soft delete. *)
Definition deletedAda : User.t := User.with_isDeleted true ada.

(** An unverified user whose stored password is not a hash at all. *)
Definition grace : User.t :=
  {| User._id := "u2"; User.name := "Grace"; User.email := "grace@example.com";
     User.password := ""; User.role := "user";
     User.isVerified := false; User.isDeleted := false;
     User.image := None; User.fcmToken := "";
     User.profile_status := None; User.phone := None; User.address := None;
     User.ageRange := None; User.managerInfoId := None;
     User.isRequest := None; User.createdAt := 0 |}.

(** A verification service for the demo: the submitted code must equal
    the code stored for the email of the token, and the record must not
    have expired. *)
Definition verifyOTPService (otp token : string) : M Controller.VerifiedInfo :=
  fun w =>
    match Services.verifyToken services token with
    | Thrown e => (Thrown (ApiError 401 "Invalid token"), w)
    | Returned p =>
        match find (fun o => (OTP.email o =? Payload.email p)%string) (otps w) with
        | Some r =>
            if (OTP.otp r =? otp)%string && (clock w <? OTP.expiresAt r) then
              (Returned
                 {| Controller.info_token := Services.generateToken services p;
                    Controller.info_name := "";
                    Controller.info_email := Payload.email p;
                    Controller.info_phone := None |}, w)
            else (Thrown (ApiError 400 "Invalid or expired OTP"), w)
        | None => (Thrown (ApiError 400 "Invalid or expired OTP"), w)
        end
    end.

(** A code for Ada that expires at 60000. *)
Definition pendingCode : OTP.t :=
  {| OTP.email := "ada@example.com"; OTP.otp := "123456";
     OTP.expiresAt := 60000 |}.

End Demo.

(* ===================================================================== *)
(** * Facts about the duplicate-key error handler                         *)
(* ===================================================================== *)

Module DuplicateErrorFacts.
Import DuplicateError.

Lemma lazy_group_closed (mid post : jsstring) :
  ~ In quote mid ->
  (forall c, In c mid -> is_line_terminator c = false) ->
  lazy_group (mid ++ quote :: post)%list = Some mid.
Proof.
  induction mid as [|c mid IH]; intros Hq Hl; simpl.
  - reflexivity.
  - destruct (N.eqb_spec c quote) as [->|_].
    + exfalso. apply Hq. now left.
    + rewrite (Hl c) by now left.
      rewrite IH; [reflexivity | |].
      * intro H. apply Hq. now right.
      * intros d Hd. apply Hl. now right.
Qed.

Lemma match_quoted_skip (pre s : jsstring) :
  ~ In quote pre -> match_quoted (pre ++ s)%list = match_quoted s.
Proof.
  induction pre as [|c pre IH]; intros Hq; simpl.
  - reflexivity.
  - destruct (N.eqb_spec c quote) as [->|_].
    + exfalso. apply Hq. now left.
    + apply IH. intro H. apply Hq. now right.
Qed.

Lemma lazy_group_no_quote (s : jsstring) :
  ~ In quote s -> lazy_group s = None.
Proof.
  induction s as [|c s IH]; intros Hq; simpl.
  - reflexivity.
  - destruct (N.eqb_spec c quote) as [->|_].
    + exfalso. apply Hq. now left.
    + destruct (is_line_terminator c); [reflexivity|].
      rewrite IH; [reflexivity|]. intro H. apply Hq. now right.
Qed.

(** A message with fewer than two double quotes makes the handler throw. *)
Lemma handlerDuplicateError_needs_quotes (err : MongooseError) :
  ~ In quote (message err) -> handlerDuplicateError err = ThrowsTypeError.
Proof.
  intros Hq. unfold handlerDuplicateError.
  rewrite <- (app_nil_r (message err)), match_quoted_skip by exact Hq.
  reflexivity.
Qed.

(** Whenever the handler returns, it returns the 409 response. *)
Lemma handlerDuplicateError_returns_409 (err : MongooseError) (r : IErrorResponse) :
  handlerDuplicateError err = Returns r ->
  success r = false /\ statusCode r = 409 /\ errorDetails r = err.
Proof.
  unfold handlerDuplicateError.
  destruct (match_quoted (message err)); [|discriminate].
  intros H. injection H as <-. repeat split.
Qed.

(** C8, as amended: for a duplicate-key error whose message has a first
    double quote that is closed by a second double quote with no line
    terminator in between, the handler returns success = false,
    statusCode 409 and the error message made of the text between these
    two quotes followed by " is already exists!". *)
Theorem handlerDuplicateError_first_quoted
    (err : MongooseError) (pre mid post : jsstring) :
  message err = (pre ++ quote :: mid ++ quote :: post)%list ->
  ~ In quote pre ->
  ~ In quote mid ->
  (forall c, In c mid -> is_line_terminator c = false) ->
  handlerDuplicateError err =
    Returns {| success := false;
               statusCode := 409;
               errorType := "Duplicate Error";
               errorMessage := (mid ++ code_units " is already exists!")%list;
               errorDetails := err |}.
Proof.
  intros Hm Hpre Hmid Hlt. unfold handlerDuplicateError.
  rewrite Hm, match_quoted_skip by exact Hpre.
  simpl. rewrite lazy_group_closed by assumption. reflexivity.
Qed.

(** The message of a duplicate email. *)
Definition duplicate_email_message : jsstring :=
  (code_units "E11000 duplicate key error collection: app.users index: email_1 dup key: { email: "
     ++ quote :: code_units "ada@example.com" ++ quote :: code_units " }")%list.

Lemma handlerDuplicateError_first_quoted_witness :
  handlerDuplicateError {| message := duplicate_email_message |} =
    Returns {| success := false;
               statusCode := 409;
               errorType := "Duplicate Error";
               errorMessage :=
                 code_units "ada@example.com is already exists!";
               errorDetails := {| message := duplicate_email_message |} |}.
Proof.
  apply (handlerDuplicateError_first_quoted
           {| message := duplicate_email_message |}
           (code_units "E11000 duplicate key error collection: app.users index: email_1 dup key: { email: ")
           (code_units "ada@example.com")
           (code_units " }")).
  - reflexivity.
  - vm_compute. intuition discriminate.
  - vm_compute. intuition discriminate.
  - intros c Hc. vm_compute in Hc.
    repeat (destruct Hc as [<-|Hc]; [reflexivity|]). destruct Hc.
Defined.

(** The message of a duplicate numeric key: it has no double quote. *)
Definition duplicate_phone_message : jsstring :=
  code_units "E11000 duplicate key error collection: app.users index: phone_1 dup key: { phone: 5550100 }".

(** C8, as stated, fails at a duplicate-key error whose message has no
    double-quoted substring: the handler returns no response at all, it
    throws a TypeError. *)
Lemma handlerDuplicateError_every_message_counterexample :
  handlerDuplicateError {| message := duplicate_phone_message |} = ThrowsTypeError
  /\ ~ (exists r, handlerDuplicateError {| message := duplicate_phone_message |} = Returns r
                  /\ success r = false /\ statusCode r = 409).
Proof.
  split.
  - reflexivity.
  - intros [r [H _]]. discriminate H.
Qed.

End DuplicateErrorFacts.

(* ===================================================================== *)
(** * Facts about the user controller                                     *)
(* ===================================================================== *)

Module ControllerFacts.
Import Controller.

(** Unfold the monad, so that a handler reduces on its hypotheses. *)
Ltac unfold_monad :=
  cbv beta iota zeta delta
    [bind ret throw lift gets modify new_Date sendResponse sendError rewrap
     findUserByEmail findUserById UserModel_findOne OTPModel_findOne
     generateOTP hashPassword saveOTP save userDelete send_awaited
     send_detached].

Lemma or_else_message (m fallback : string) :
  m <> "" -> Js.or_else m fallback = m.
Proof.
  intros H. unfold Js.or_else, Js.truthy.
  destruct (String.eqb_spec m ""); [contradiction | reflexivity].
Qed.

Lemma truthy_true (s : string) : Js.truthy s = true -> s <> "".
Proof.
  unfold Js.truthy. destruct (String.eqb_spec s ""); [discriminate | auto].
Qed.

Lemma floor_div_monotone (a b : Z) :
  a <= b -> Js.floor_div a 1000 <= Js.floor_div b 1000.
Proof. intros H. unfold Js.floor_div. apply Z.div_le_mono; lia. Qed.

Lemma responses_snoc (es : list Event) (r : Response.t) :
  responses (es ++ [Responded r]) = (responses es ++ [r])%list.
Proof.
  induction es as [|e es IH]; simpl; [reflexivity|].
  destruct e; rewrite ?IH; reflexivity.
Qed.

Lemma responses_skip (es : list Event) (e : Event) :
  (forall r, e <> Responded r) -> responses (es ++ [e]) = responses es.
Proof.
  intros He. induction es as [|e0 es IH]; simpl.
  - destruct e; try reflexivity. exfalso. now apply (He r).
  - destruct e0; rewrite ?IH; auto.
Qed.

(** The user found by email is the one its identifier leads to, when
    identifiers are unique: saving a changed copy of it that keeps
    identifier and email puts the copy under the same email. *)
Lemma find_email_replace_by_id (us : list User.t) (u u' : User.t) :
  NoDup (map User._id us) ->
  find (fun v => (User.email v =? User.email u)%string) us = Some u ->
  User._id u' = User._id u ->
  User.email u' = User.email u ->
  find (fun v => (User.email v =? User.email u)%string) (replace_by_id u' us)
    = Some u'.
Proof.
  intros Hnd Hfind Hid Hem.
  induction us as [|v us IH]; simpl in *; [discriminate|].
  inversion Hnd as [|x xs Hnotin Hnd']; subst.
  destruct (User.email v =? User.email u)%string eqn:E.
  - injection Hfind as ->. rewrite Hid, String.eqb_refl. simpl.
    now rewrite Hem, String.eqb_refl.
  - destruct (User._id v =? User._id u')%string eqn:Eid.
    + exfalso. apply String.eqb_eq in Eid. apply Hnotin.
      rewrite Eid, Hid. apply in_map.
      now apply find_some in Hfind.
    + simpl. rewrite E. now apply IH.
Qed.

(** A saved copy is in the collection afterwards, when a stored record
    has its identifier. *)
Lemma In_replace_by_id (us : list User.t) (u u' : User.t) :
  In u us -> User._id u' = User._id u -> In u' (replace_by_id u' us).
Proof.
  intros Hin Hid. induction us as [|v us IH]; simpl in *; [contradiction|].
  destruct (User._id v =? User._id u')%string eqn:E.
  - now left.
  - right. destruct Hin as [->|Hin].
    + rewrite Hid, String.eqb_refl in E. discriminate E.
    + now apply IH.
Qed.

Section Facts.

Variable services : Services.t.

Lemma resendOTP_cooldown (req : Request.t) (w : World)
    (decoded : Payload.t) (r : OTP.t) :
  Services.verifyToken services (Request.authorization req) = Returned decoded ->
  find (fun o => (OTP.email o =? Payload.email decoded)%string) (otps w) = Some r ->
  OTP.expiresAt r > clock w ->
  resendOTP services req w =
    (Thrown (ApiError 403 (cooldown_message (remainingTime r (clock w)))), w).
Proof.
  intros Htok Hfind Hexp. unfold resendOTP. rewrite Htok.
  unfold_monad. rewrite Hfind.
  assert ((OTP.expiresAt r >? clock w) = true) as -> by (apply Z.gtb_lt; lia).
  reflexivity.
Qed.

(** C4: a resend request made while the stored OTP record of the email is
    unexpired fails with the cooldown error (403) whose message reports
    floor((expiresAt - now) / 1000) seconds, and changes nothing: the
    stored code and expiry stay, no response is sent, no code is drawn and
    no email goes out.  The reported value is at most the lifetime the
    record was issued with, it does not grow as time passes, and it is
    smaller after a full second. *)
Theorem resendOTP_cooldown_keeps_code (req : Request.t) (w : World)
    (decoded : Payload.t) (r : OTP.t) :
  Services.verifyToken services (Request.authorization req) = Returned decoded ->
  find (fun o => (OTP.email o =? Payload.email decoded)%string) (otps w) = Some r ->
  OTP.expiresAt r > clock w ->
  resendOTP services req w =
    (Thrown (ApiError httpStatus.FORBIDDEN
               ("You can't request another OTP before "
                  ++ Js.number_to_string
                       (Js.floor_div (OTP.expiresAt r - clock w) 1000)
                  ++ " seconds.")), w)
  /\ otps (snd (resendOTP services req w)) = otps w
  /\ 0 <= remainingTime r (clock w)
  /\ (forall issuedAt ttl,
        OTP.expiresAt r = issuedAt + ttl -> issuedAt <= clock w ->
        remainingTime r (clock w) <= ttl / 1000)
  /\ (forall w',
        otps w' = otps w -> clock w <= clock w' -> OTP.expiresAt r > clock w' ->
        resendOTP services req w' =
          (Thrown (ApiError httpStatus.FORBIDDEN
                     (cooldown_message (remainingTime r (clock w')))), w')
        /\ remainingTime r (clock w') <= remainingTime r (clock w)
        /\ (clock w + 1000 <= clock w' ->
            remainingTime r (clock w') < remainingTime r (clock w))).
Proof.
  intros Htok Hfind Hexp.
  pose proof (resendOTP_cooldown req w decoded r Htok Hfind Hexp) as Hrun.
  split; [exact Hrun|]. split; [rewrite Hrun; reflexivity|].
  split; [|split].
  - unfold remainingTime, Js.floor_div. apply Z.div_pos; lia.
  - intros issuedAt ttl Hi Hle. unfold remainingTime.
    apply (floor_div_monotone _ ttl). lia.
  - intros w' Hotps Hclock Hexp'. split; [|split].
    + apply (resendOTP_cooldown req w' decoded r Htok); [|exact Hexp'].
      rewrite Hotps. exact Hfind.
    + unfold remainingTime. apply floor_div_monotone. lia.
    + intros Hsec. unfold remainingTime, Js.floor_div.
      assert ((OTP.expiresAt r - clock w') / 1000
              <= (OTP.expiresAt r - clock w - 1000) / 1000)
        by (apply Z.div_le_mono; lia).
      replace (OTP.expiresAt r - clock w - 1000)
        with (OTP.expiresAt r - clock w + (-1) * 1000) in H by lia.
      rewrite Z.div_add in H by lia. lia.
Qed.

(** ** loginUser *)

(** A soft-deleted user is refused by [loginUser] with a 404 error, and
    nothing is sent or stored. *)
Lemma loginUser_rejects_deleted (req : Request.t) (w : World) (user : User.t) :
  find (fun u => (User.email u =? Body.email (Request.body req))%string) (users w)
    = Some user ->
  User.isDeleted user = true ->
  loginUser services req w = (Thrown (ApiError 404 "your account is deleted."), w).
Proof.
  intros Hfind Hdel. unfold loginUser. unfold_monad.
  rewrite Hfind, Hdel. reflexivity.
Qed.

(** C3: when the looked-up user exists, is not soft-deleted, is not
    locked and is unverified, [loginUser] sends the response with status
    401 (not 200) whose data is exactly the role and a token, then issues
    a fresh OTP; the handler returns, whatever the stored password hash,
    the submitted password and the password verifier are: it never ends in
    the wrong-password error. *)
Theorem loginUser_unverified_skips_password
    (req : Request.t) (w : World) (user : User.t) :
  find (fun u => (User.email u =? Body.email (Request.body req))%string) (users w)
    = Some user ->
  User.isDeleted user = false ->
  Services.validateUserLockStatus services user = Returned tt ->
  User.isVerified user = false ->
  let sent := unverified_response user (session_token services user) in
  exists w',
    loginUser services req w = (Returned tt, w')
    /\ responses (events w') = (responses (events w) ++ [sent])%list
    /\ Response.statusCode sent <> 200
    /\ Response.data sent =
         JObj [("role", JStr (User.role user));
               ("token", JStr (session_token services user))]
    /\ users w' = users w
    /\ (forall verify stored submitted w0,
          let services' :=
            {| Services.verifyToken := Services.verifyToken services;
               Services.generateToken := Services.generateToken services;
               Services.generateRegisterToken :=
                 Services.generateRegisterToken services;
               Services.argon2_verify := verify;
               Services.argon2_hash := Services.argon2_hash services;
               Services.validateUserLockStatus :=
                 Services.validateUserLockStatus services;
               Services.otp_code := Services.otp_code services;
               Services.deliver := Services.deliver services;
               Services.OTP_TTL := Services.OTP_TTL services;
               Services.matchesFilters := Services.matchesFilters services;
               Services.objectId := Services.objectId services;
               Services.schemaDefaults := Services.schemaDefaults services |} in
          let req' :=
            {| Request.body :=
                 {| Body.email := Body.email (Request.body req);
                    Body.password := submitted;
                    Body.fcmToken := Body.fcmToken (Request.body req);
                    Body.oldPassword := Body.oldPassword (Request.body req);
                    Body.newPassword := Body.newPassword (Request.body req) |};
               Request.query := Request.query req;
               Request.authorization := Request.authorization req;
               Request.user := Request.user req |} in
          find (fun u => (User.email u =? Body.email (Request.body req))%string)
               (users w0) = Some (User.with_password stored user) ->
          Services.validateUserLockStatus services
            (User.with_password stored user) = Returned tt ->
          fst (loginUser services' req' w0) = Returned tt
          /\ responses (events (snd (loginUser services' req' w0)))
             = (responses (events w0) ++ [sent])%list).
Proof.
  intros Hfind Hdel Hlock Hver sent.
  eexists. split; [|split; [|split; [|split; [|split]]]].
  - unfold loginUser. unfold_monad.
    rewrite Hfind, Hdel, Hlock, Hver. cbv beta iota. reflexivity.
  - cbn [events emit set_otps print draw].
    rewrite !responses_skip by (intros; discriminate). apply responses_snoc.
  - cbn. discriminate.
  - reflexivity.
  - reflexivity.
  - intros verify stored submitted w0 services' req' Hfind' Hlock'.
    unfold loginUser. unfold_monad. subst services' req'.
    cbn [Request.body Body.email Body.password Body.fcmToken
         Services.validateUserLockStatus].
    rewrite Hfind'.
    change (User.isDeleted (User.with_password stored user))
      with (User.isDeleted user).
    change (User.isVerified (User.with_password stored user))
      with (User.isVerified user).
    rewrite Hdel, Hlock', Hver. cbn [negb]. cbv beta iota.
    split; [reflexivity|].
    cbn [snd events emit set_otps print draw].
    rewrite !responses_skip by (intros; discriminate).
    rewrite responses_snoc. reflexivity.
Qed.

(** ** adminloginUser *)

(** The response of a successful admin login. *)
Lemma adminloginUser_accepts (req : Request.t) (w : World) (user : User.t) :
  find (fun u => (User.email u =? Body.email (Request.body req))%string) (users w)
    = Some user ->
  User.role user = "admin" ->
  Services.argon2_verify services (User.password user)
    (Body.password (Request.body req)) = Returned true ->
  exists r,
    adminloginUser services req w = (Returned tt, emit (Responded r) w)
    /\ Response.statusCode r = 200
    /\ Response.success r = true
    /\ exists profile,
         Response.data r =
           JObj [("user", profile);
                 ("token", JStr (session_token services user))].
Proof.
  intros Hfind Hrole Hpw. eexists. split; [|split; [|split]].
  - unfold adminloginUser. unfold_monad.
    rewrite Hfind, Hrole, Hpw. cbn [String.eqb Ascii.eqb Bool.eqb negb].
    cbv beta iota. reflexivity.
  - reflexivity.
  - reflexivity.
  - eexists. reflexivity.
Qed.

(** C1: what the two login operations do with a soft-deleted user
    record.  [loginUser] refuses it with the 404 error and sends no
    token.  [adminloginUser] does not look at [isDeleted]: when the
    record has the admin role and the password matches, it sends the 200
    response with a session token. *)
Theorem deleted_user_login_paths
    (req : Request.t) (w : World) (user : User.t) :
  find (fun u => (User.email u =? Body.email (Request.body req))%string) (users w)
    = Some user ->
  User.isDeleted user = true ->
  loginUser services req w = (Thrown (ApiError 404 "your account is deleted."), w)
  /\ (User.role user = "admin" ->
      Services.argon2_verify services (User.password user)
        (Body.password (Request.body req)) = Returned true ->
      exists r,
        adminloginUser services req w = (Returned tt, emit (Responded r) w)
        /\ Response.statusCode r = 200
        /\ Response.success r = true
        /\ exists profile,
             Response.data r =
               JObj [("user", profile);
                     ("token", JStr (session_token services user))]).
Proof.
  intros Hfind Hdel. split.
  - now apply (loginUser_rejects_deleted req w user).
  - intros Hrole Hpw. now apply adminloginUser_accepts.
Qed.

(** ** forgotPassword *)

(** The response of [forgotPassword]. *)
Lemma forgotPassword_absent (req : Request.t) (w : World) :
  Js.truthy (Body.email (Request.body req)) = true ->
  find (fun u => (User.email u =? Body.email (Request.body req))%string) (users w)
    = None ->
  forgotPassword services req w =
    (Thrown (ApiError 404 "This account does not exist."), w).
Proof.
  intros Hemail Hfind. unfold forgotPassword. rewrite Hemail. cbn [negb].
  unfold_monad. rewrite Hfind. reflexivity.
Qed.

(** C2: what [forgotPassword] does with the user of the email: it
    requires an existing user and never reads [isDeleted], where the
    claim has it refuse a soft-deleted one.  When no user record has the
    email it fails with the 404 error and sends, draws and stores
    nothing.  When a user
    record has the email, soft-deleted or not, and no unexpired OTP record
    is stored for it, the handler sends the 200 response with the
    register token, draws a fresh OTP and hands the reset email to the
    mail transport; when the transport accepts the email the OTP is
    stored. *)
Theorem forgotPassword_requires_existing_user (req : Request.t) (w : World) :
  let email := Body.email (Request.body req) in
  Js.truthy email = true ->
  (find (fun u => (User.email u =? email)%string) (users w) = None ->
   forgotPassword services req w =
     (Thrown (ApiError 404 "This account does not exist."), w))
  /\ (forall user,
        find (fun u => (User.email u =? email)%string) (users w) = Some user ->
        no_cooldown email w ->
        let otp := Services.otp_code services (entropy w) in
        let sent :=
          {| Response.statusCode := 200;
             Response.success := true;
             Response.message := "OTP sent to your email. Please check!";
             Response.data :=
               JObj [("token",
                      JStr (Services.generateRegisterToken services email))];
             Response.pagination := None |} in
        let mail :=
          {| Email.kind := ResetOTPEmail; Email.recipient := email;
             Email.otp := otp; Email.name := User.name user |} in
        let stored :=
          {| OTP.email := email; OTP.otp := otp;
             OTP.expiresAt := clock w + Services.OTP_TTL services |} in
        let w' := snd (forgotPassword services req w) in
        users w' = users w
        /\ entropy w' = S (entropy w)
        /\ match Services.deliver services mail with
           | Returned _ =>
               fst (forgotPassword services req w) = Returned tt
               /\ events w' =
                    (events w ++ [Responded sent; EmailDispatched mail;
                                  OtpSaved stored])%list
               /\ otps w' = upsert stored (otps w)
           | Thrown e =>
               fst (forgotPassword services req w) = Thrown e
               /\ events w' =
                    (events w ++ [Responded sent; EmailDispatched mail])%list
               /\ otps w' = otps w
           end).
Proof.
  intros email Hemail. subst email. split.
  - intros Hfind. now apply forgotPassword_absent.
  - intros user Hfind Hcool. cbv zeta.
    assert (Hgate : forall r,
      find (fun o => (OTP.email o =? Body.email (Request.body req))%string)
           (otps w) = Some r ->
      (OTP.expiresAt r >? clock w) = false).
    { intros r Hr. specialize (Hcool r Hr).
      rewrite Z.gtb_ltb. apply Z.ltb_ge. exact Hcool. }
    unfold forgotPassword. rewrite Hemail. cbn [negb].
    unfold_monad. rewrite Hfind.
    destruct (find _ (otps w)) as [r|] eqn:Hr;
      [rewrite (Hgate r eq_refl)|];
      destruct (Services.deliver services _) eqn:Hd; cbn;
      rewrite <- ?app_assoc; repeat split.
Qed.

(** ** resetPassword *)

(** C5: a reset request with a valid token that carries a role claim and
    with a non-empty password, when no user record has the email of the
    token, sends the success response "Password reset successfully." and
    only then throws the user-not-found error (404); no user record is
    modified. *)
Theorem resetPassword_responds_before_lookup
    (req : Request.t) (w : World) (decoded : Payload.t) :
  Services.verifyToken services (Request.authorization req) = Returned decoded ->
  Js.truthy (Payload.role decoded) = true ->
  Js.truthy (Body.password (Request.body req)) = true ->
  find (fun u => (User.email u =? Payload.email decoded)%string) (users w) = None ->
  let sent :=
    {| Response.statusCode := 200;
       Response.success := true;
       Response.message := "Password reset successfully.";
       Response.data := JNull;
       Response.pagination := None |} in
  resetPassword services req w =
    (Thrown (ApiError 404 "User not found. Are you attempting something sneaky?"),
     emit (Responded sent) w)
  /\ events (snd (resetPassword services req w))
     = (events w ++ [Responded sent])%list
  /\ users (snd (resetPassword services req w)) = users w.
Proof.
  intros Htok Hrole Hpw Hfind sent.
  assert (Hrun : resetPassword services req w =
                 (Thrown (ApiError 404
                    "User not found. Are you attempting something sneaky?"),
                  emit (Responded sent) w)).
  { unfold resetPassword. rewrite Htok, Hrole, Hpw. cbn [negb].
    unfold_monad. cbn [users emit]. rewrite Hfind. reflexivity. }
  rewrite Hrun. repeat split.
Qed.

(** ** deleteUser *)

(** C6: a delete request that targets a soft-deleted user record fails
    with the error "This account is already deleted." (404) and changes
    nothing: no deletion happens, no response is sent, and the collection
    is the same. *)
Theorem deleteUser_already_deleted
    (req : Request.t) (w : World) (user : User.t) :
  find (fun u => (User._id u =? Query.id (Request.query req))%string) (users w)
    = Some user ->
  User.isDeleted user = true ->
  deleteUser req w =
    (Thrown (ApiError 404 "This account is already deleted."), w)
  /\ users (snd (deleteUser req w)) = users w
  /\ events (snd (deleteUser req w)) = events w.
Proof.
  intros Hfind Hdel.
  assert (Hrun : deleteUser req w =
                 (Thrown (ApiError 404 "This account is already deleted."), w)).
  { unfold deleteUser. unfold_monad. rewrite Hfind, Hdel. reflexivity. }
  rewrite Hrun. repeat split.
Qed.

(** ** changePassword *)

Lemma changePassword_wrong_old (req : Request.t) (w : World)
    (decoded : Payload.t) (user : User.t) :
  Js.truthy (Body.oldPassword (Request.body req)) = true ->
  Js.truthy (Body.newPassword (Request.body req)) = true ->
  Request.user req = Some decoded ->
  find (fun u => (User.email u =? Payload.email decoded)%string) (users w)
    = Some user ->
  Services.argon2_verify services (User.password user)
    (Body.oldPassword (Request.body req)) = Returned false ->
  changePassword services req w =
    (Thrown (ApiError 401 "Old password is incorrect."), w).
Proof.
  intros Hold Hnew Huser Hfind Hver.
  unfold changePassword. rewrite Hold, Hnew, Huser. cbn [negb orb].
  unfold_monad. rewrite Hfind, Hver. reflexivity.
Qed.

Lemma changePassword_right_old (req : Request.t) (w : World)
    (decoded : Payload.t) (user : User.t) :
  Js.truthy (Body.oldPassword (Request.body req)) = true ->
  Js.truthy (Body.newPassword (Request.body req)) = true ->
  Request.user req = Some decoded ->
  find (fun u => (User.email u =? Payload.email decoded)%string) (users w)
    = Some user ->
  Services.argon2_verify services (User.password user)
    (Body.oldPassword (Request.body req)) = Returned true ->
  let changed :=
    User.with_password
      (Services.argon2_hash services (entropy w)
         (Body.newPassword (Request.body req))) user in
  let sent :=
    {| Response.statusCode := 200;
       Response.success := true;
       Response.message := "You have successfully changed your password.";
       Response.data := JNull;
       Response.pagination := None |} in
  exists w',
    changePassword services req w = (Returned tt, w')
    /\ users w' = replace_by_id changed (users w)
    /\ events w' = (events w ++ [UserSaved changed; Responded sent])%list.
Proof.
  intros Hold Hnew Huser Hfind Hver changed sent.
  eexists. split; [|split].
  - unfold changePassword. rewrite Hold, Hnew, Huser. cbn [negb orb].
    unfold_monad. rewrite Hfind, Hver. cbn [negb]. cbv beta iota.
    reflexivity.
  - reflexivity.
  - cbn. rewrite <- app_assoc. reflexivity.
Qed.

(** The collection changes only when the old password verified. *)
Lemma changePassword_only_if_verified (req : Request.t) (w : World) :
  users (snd (changePassword services req w)) <> users w ->
  exists decoded user,
    Request.user req = Some decoded
    /\ find (fun u => (User.email u =? Payload.email decoded)%string) (users w)
       = Some user
    /\ Services.argon2_verify services (User.password user)
         (Body.oldPassword (Request.body req)) = Returned true.
Proof.
  unfold changePassword. unfold_monad.
  destruct (negb (Js.truthy (Body.oldPassword (Request.body req)))
            || negb (Js.truthy (Body.newPassword (Request.body req))));
    [intros H; now elim H|].
  destruct (Request.user req) as [decoded|]; [|intros H; now elim H].
  destruct (find _ (users w)) as [user|] eqn:Hfind; [|intros H; now elim H].
  destruct (Services.argon2_verify services (User.password user)
              (Body.oldPassword (Request.body req))) as [[|]|e] eqn:Hver;
    cbn [negb]; cbv beta iota; intros H.
  - exists decoded, user. auto.
  - now elim H.
  - now elim H.
Qed.

(** C7: [changePassword] takes the new password only if the old one
    verifies against the stored hash.  When the verification answers
    false, the handler fails with the unauthorized error (401) and the
    world, the stored hash included, is unchanged.  When it answers true,
    the new password is hashed and the record saved before the success
    response is sent: the saved record holds the hash of the new password
    in its password field and the other fields of the user, it is in the
    collection afterwards, and with unique identifiers it is the record
    found under the email.  The collection changes in no other case. *)
Theorem changePassword_requires_old_password (req : Request.t) (w : World) :
  (forall decoded user,
     Js.truthy (Body.oldPassword (Request.body req)) = true ->
     Js.truthy (Body.newPassword (Request.body req)) = true ->
     Request.user req = Some decoded ->
     find (fun u => (User.email u =? Payload.email decoded)%string) (users w)
       = Some user ->
     (Services.argon2_verify services (User.password user)
        (Body.oldPassword (Request.body req)) = Returned false ->
      changePassword services req w =
        (Thrown (ApiError httpStatus.UNAUTHORIZED "Old password is incorrect."), w))
     /\ (Services.argon2_verify services (User.password user)
           (Body.oldPassword (Request.body req)) = Returned true ->
         let changed :=
           User.with_password
             (Services.argon2_hash services (entropy w)
                (Body.newPassword (Request.body req))) user in
         exists w' sent,
           changePassword services req w = (Returned tt, w')
           /\ users w' = replace_by_id changed (users w)
           /\ events w' = (events w ++ [UserSaved changed; Responded sent])%list
           /\ Response.statusCode sent = 200
           /\ Response.message sent =
                "You have successfully changed your password."
           /\ User.password changed =
                Services.argon2_hash services (entropy w)
                  (Body.newPassword (Request.body req))
           /\ account changed = account user
           /\ User.isDeleted changed = User.isDeleted user
           /\ User.fcmToken changed = User.fcmToken user
           /\ In changed (users w')
           /\ (NoDup (map User._id (users w)) ->
               find (fun u => (User.email u =? Payload.email decoded)%string)
                    (users w') = Some changed)))
  /\ (users (snd (changePassword services req w)) <> users w ->
      exists decoded user,
        Request.user req = Some decoded
        /\ find (fun u => (User.email u =? Payload.email decoded)%string) (users w)
           = Some user
        /\ Services.argon2_verify services (User.password user)
             (Body.oldPassword (Request.body req)) = Returned true).
Proof.
  split.
  - intros decoded user Hold Hnew Huser Hfind. split.
    + intros Hver. now apply (changePassword_wrong_old req w decoded user).
    + intros Hver changed.
      destruct (changePassword_right_old req w decoded user
                  Hold Hnew Huser Hfind Hver) as [w' [Hrun [Hus Hev]]].
      assert (Hem : User.email user = Payload.email decoded).
      { pose proof (find_some _ _ Hfind) as [_ H].
        now apply String.eqb_eq in H. }
      exists w'. eexists. split; [exact Hrun|]. split; [exact Hus|].
      split; [exact Hev|]. split; [reflexivity|]. split; [reflexivity|].
      split; [reflexivity|]. split; [reflexivity|]. split; [reflexivity|].
      split; [reflexivity|]. split.
      * rewrite Hus. apply (In_replace_by_id (users w) user changed).
        -- now apply find_some in Hfind.
        -- reflexivity.
      * intros Hnd. rewrite Hus, <- Hem.
        apply (find_email_replace_by_id (users w) user changed Hnd).
        -- now rewrite Hem.
        -- reflexivity.
        -- reflexivity.
  - apply changePassword_only_if_verified.
Qed.

(** ** getAllUsers *)

(** C9: with a valid token of an existing account, page = 1 and
    limit = 10, over a collection in which 25 users match the filters,
    [getAllUsers] sends the 200 response whose pagination has
    totalPage = 3, currentPage = 1, nextPage = 2, limit = 10,
    totalItem = 25 and prevPage = 1: the null of no previous page is
    rendered as 1.  The data is the first ten matching users. *)
Theorem getAllUsers_first_page_of_25
    (req : Request.t) (w : World) (decoded : Payload.t) (account : User.t) :
  Services.verifyToken services (Request.authorization req) = Returned decoded ->
  find (fun u => (User._id u =? Payload.id decoded)%string) (users w)
    = Some account ->
  Query.page (Request.query req) = "1" ->
  Query.limit (Request.query req) = "10" ->
  List.length
    (filter (Services.matchesFilters services (Request.query req)) (users w))
    = 25%nat ->
  exists r,
    getAllUsers services req w = (Returned tt, emit (Responded r) w)
    /\ Response.statusCode r = 200
    /\ Response.data r =
         JArr (map list_entry
                 (firstn 10
                    (filter (Services.matchesFilters services (Request.query req))
                       (users w))))
    /\ Response.pagination r =
         Some {| Pagination.totalPage := 3;
                 Pagination.currentPage := 1;
                 Pagination.prevPage := 1;
                 Pagination.nextPage := 2;
                 Pagination.limit := 10;
                 Pagination.totalItem := 25 |}.
Proof.
  intros Htok Hfind Hpage Hlimit Hlen.
  eexists. split; [|split; [|split]].
  - unfold getAllUsers, getUserList. rewrite Htok, Hpage, Hlimit.
    change (Js.parseInt_or "1" 1) with 1.
    change (Js.parseInt_or "10" 10) with 10.
    unfold_monad. rewrite Hfind, Hlen.
    change (Z.to_nat ((1 - 1) * 10)) with 0%nat.
    change (Z.to_nat 10) with 10%nat.
    cbn [skipn].
    assert (Hten : List.length
              (firstn 10
                 (filter (Services.matchesFilters services (Request.query req))
                    (users w))) = 10%nat).
    { rewrite length_firstn, Hlen. reflexivity. }
    rewrite Hten. cbn [Nat.eqb].
    change (Js.ceil_div (Z.of_nat 25) 10) with 3.
    change (1 >? 1) with false. change (1 <? 3) with true.
    cbv beta iota. reflexivity.
  - reflexivity.
  - reflexivity.
  - reflexivity.
Qed.

End Facts.

(** ** The facts at work on the concrete deployment *)

(** A cooldown of 44.5 seconds is reported as 44 seconds. *)
Lemma resendOTP_cooldown_keeps_code_witness :
  let req := Demo.request (Demo.body "" "") (Demo.query "" "" "" "")
               "register-token" None in
  let w := Demo.world [Demo.ada] [Demo.pendingCode] 15500 in
  resendOTP Demo.services req w =
    (Thrown (ApiError 403 "You can't request another OTP before 44 seconds."), w)
  /\ otps (snd (resendOTP Demo.services req w)) = [Demo.pendingCode].
Proof.
  intros req w.
  destruct (resendOTP_cooldown_keeps_code Demo.services req w
              Demo.registerPayload Demo.pendingCode)
    as [Hrun [Hotps _]].
  - reflexivity.
  - reflexivity.
  - reflexivity.
  - split; [exact Hrun | exact Hotps].
Defined.

(** Grace, unverified and with an empty stored password, logs in with a
    wrong password and gets the 401 response with role and token. *)
Lemma loginUser_unverified_skips_password_witness :
  let req := Demo.request (Demo.body "grace@example.com" "not my password")
               (Demo.query "" "" "" "") "" None in
  let w := Demo.world [Demo.ada; Demo.grace] [] 1000 in
  exists w',
    loginUser Demo.services req w = (Returned tt, w')
    /\ responses (events w') =
         [unverified_response Demo.grace "jwt:u2:grace@example.com:user"].
Proof.
  intros req w.
  destruct (loginUser_unverified_skips_password Demo.services req w Demo.grace)
    as [w' [Hrun [Hresp _]]].
  - reflexivity.
  - reflexivity.
  - reflexivity.
  - reflexivity.
  - exists w'. split; [exact Hrun | exact Hresp].
Defined.

(** Ada, soft-deleted, is refused by the login and logs in through the
    admin login. *)
Lemma deleted_user_login_paths_witness :
  let req := Demo.request (Demo.body "ada@example.com" "secret")
               (Demo.query "" "" "" "") "" None in
  let w := Demo.world [Demo.deletedAda] [] 1000 in
  User.isDeleted Demo.deletedAda = true
  /\ loginUser Demo.services req w
     = (Thrown (ApiError 404 "your account is deleted."), w)
  /\ exists r,
       adminloginUser Demo.services req w = (Returned tt, emit (Responded r) w)
       /\ Response.statusCode r = 200
       /\ exists profile,
            Response.data r =
              JObj [("user", profile);
                    ("token", JStr "jwt:u1:ada@example.com:admin")].
Proof.
  intros req w. split; [reflexivity|].
  destruct (deleted_user_login_paths Demo.services req w Demo.deletedAda)
    as [Hlogin Hadmin].
  - reflexivity.
  - reflexivity.
  - split; [exact Hlogin|].
    destruct (Hadmin eq_refl eq_refl) as [r [Hrun [Hcode [_ Hdata]]]].
    exists r. split; [exact Hrun|]. split; [exact Hcode | exact Hdata].
Defined.

(** Ada, soft-deleted and with no pending code, asks for a password
    reset: the handler returns without an error, sends the 200 response
    with a register token, draws an OTP, hands the reset email to the
    mail transport and stores the OTP. *)
Lemma forgotPassword_requires_existing_user_witness :
  let req := Demo.request (Demo.body "ada@example.com" "")
               (Demo.query "" "" "" "") "" None in
  let w := Demo.world [Demo.deletedAda] [] 1000 in
  let w' := snd (forgotPassword Demo.services req w) in
  User.isDeleted Demo.deletedAda = true
  /\ fst (forgotPassword Demo.services req w) = Returned tt
  /\ events w' =
       [Responded
          {| Response.statusCode := 200;
             Response.success := true;
             Response.message := "OTP sent to your email. Please check!";
             Response.data := JObj [("token", JStr "jwt:ada@example.com")];
             Response.pagination := None |};
        EmailDispatched
          {| Email.kind := ResetOTPEmail; Email.recipient := "ada@example.com";
             Email.otp := "480"; Email.name := "Ada" |};
        OtpSaved
          {| OTP.email := "ada@example.com"; OTP.otp := "480";
             OTP.expiresAt := 61000 |}]
  /\ otps w' =
       [{| OTP.email := "ada@example.com"; OTP.otp := "480";
           OTP.expiresAt := 61000 |}].
Proof.
  intros req w w'. split; [reflexivity|].
  destruct (forgotPassword_requires_existing_user Demo.services req w)
    as [_ Hfound].
  - reflexivity.
  - destruct (Hfound Demo.deletedAda) as [_ [_ Hserved]].
    + reflexivity.
    + intros r Hr. discriminate Hr.
    + exact Hserved.
Defined.

(** A reset for an email nobody has: the success response, then the 404. *)
Lemma resetPassword_responds_before_lookup_witness :
  let req := Demo.request (Demo.body "" "new secret")
               (Demo.query "" "" "" "") "ghost-token" None in
  let w := Demo.world [Demo.ada] [] 1000 in
  fst (resetPassword Demo.services req w)
    = Thrown (ApiError 404 "User not found. Are you attempting something sneaky?")
  /\ responses (events (snd (resetPassword Demo.services req w))) =
       [{| Response.statusCode := 200;
           Response.success := true;
           Response.message := "Password reset successfully.";
           Response.data := JNull;
           Response.pagination := None |}]
  /\ users (snd (resetPassword Demo.services req w)) = [Demo.ada].
Proof.
  intros req w.
  destruct (resetPassword_responds_before_lookup Demo.services req w
              Demo.ghostPayload)
    as [Hrun [_ Husers]].
  - reflexivity.
  - reflexivity.
  - reflexivity.
  - reflexivity.
  - rewrite Hrun. split; [reflexivity|]. split; [reflexivity|].
    rewrite Hrun in Husers. exact Husers.
Defined.

(** Ada, soft-deleted, cannot be deleted again. *)
Lemma deleteUser_already_deleted_witness :
  let req := Demo.request (Demo.body "" "") (Demo.query "u1" "" "" "") ""
               (Some Demo.sessionPayload) in
  let w := Demo.world [Demo.deletedAda] [] 1000 in
  deleteUser req w =
    (Thrown (ApiError 404 "This account is already deleted."), w).
Proof.
  intros req w.
  destruct (deleteUser_already_deleted req w Demo.deletedAda) as [Hrun _].
  - reflexivity.
  - reflexivity.
  - exact Hrun.
Defined.

(** Ada changes her password: refused with a wrong old password, saved
    and then answered with the right one. *)
Lemma changePassword_requires_old_password_witness :
  let wrong := Demo.request (Demo.passwords "guess" "next")
                 (Demo.query "" "" "" "") "" (Some Demo.sessionPayload) in
  let right := Demo.request (Demo.passwords "secret" "next")
                 (Demo.query "" "" "" "") "" (Some Demo.sessionPayload) in
  let w := Demo.world [Demo.ada] [] 1000 in
  changePassword Demo.services wrong w =
    (Thrown (ApiError 401 "Old password is incorrect."), w)
  /\ exists w' sent,
       changePassword Demo.services right w = (Returned tt, w')
       /\ users w' = [User.with_password "argon2$next" Demo.ada]
       /\ events w' =
            [UserSaved (User.with_password "argon2$next" Demo.ada);
             Responded sent]
       /\ map User.password (users w) = ["argon2$secret"]
       /\ map User.password (users w') = ["argon2$next"].
Proof.
  intros wrong right w. split.
  - destruct (changePassword_requires_old_password Demo.services wrong w)
      as [Hcases _].
    exact (proj1 (Hcases Demo.sessionPayload Demo.ada
                    eq_refl eq_refl eq_refl eq_refl) eq_refl).
  - destruct (changePassword_requires_old_password Demo.services right w)
      as [Hcases _].
    destruct (proj2 (Hcases Demo.sessionPayload Demo.ada
                       eq_refl eq_refl eq_refl eq_refl) eq_refl)
      as [w' [sent [Hrun [Hus [Hev _]]]]].
    exists w', sent. split; [exact Hrun|]. split; [exact Hus|].
    split; [exact Hev|]. split; [reflexivity|].
    rewrite Hus. reflexivity.
Defined.

(** Ada lists the 25 members with the role user, ten a page. *)
Lemma getAllUsers_first_page_of_25_witness :
  let req := Demo.request (Demo.body "" "") (Demo.query "" "1" "10" "user")
               "session-token" None in
  let w := Demo.world (Demo.ada :: map Demo.member (seq 0 25)) [] 1000 in
  exists r,
    getAllUsers Demo.services req w = (Returned tt, emit (Responded r) w)
    /\ Response.pagination r =
         Some {| Pagination.totalPage := 3;
                 Pagination.currentPage := 1;
                 Pagination.prevPage := 1;
                 Pagination.nextPage := 2;
                 Pagination.limit := 10;
                 Pagination.totalItem := 25 |}.
Proof.
  intros req w.
  destruct (getAllUsers_first_page_of_25 Demo.services req w
              Demo.sessionPayload Demo.ada)
    as [r [Hrun [_ [_ Hpage]]]].
  - reflexivity.
  - reflexivity.
  - reflexivity.
  - reflexivity.
  - reflexivity.
  - exists r. split; [exact Hrun | exact Hpage].
Defined.

End ControllerFacts.

(* ===================================================================== *)
(** * Facts about the admin seeding routine                               *)
(* ===================================================================== *)

Module SeedFacts.
Import Seed.

Lemma stored_app_some (email : string) (us more : list User.t) :
  stored email us <> None -> stored email (us ++ more) <> None.
Proof.
  unfold stored. induction us as [|u us IH]; simpl.
  - intros H. now elim H.
  - destruct (User.email u =? email)%string; [discriminate | exact IH].
Qed.

Lemma stored_app_none (email : string) (us more : list User.t) :
  stored email (us ++ more) = None -> stored email us = None.
Proof.
  intros H. destruct (stored email us) eqn:E; [|reflexivity].
  exfalso. apply (stored_app_some email us more); [|exact H].
  rewrite E. discriminate.
Qed.

Lemma stored_last (email : string) (us : list User.t) (u : User.t) :
  User.email u = email -> stored email (us ++ [u]) <> None.
Proof.
  intros <-. unfold stored. induction us as [|v us IH]; simpl.
  - rewrite String.eqb_refl. discriminate.
  - destruct (User.email v =? User.email u)%string; [discriminate | exact IH].
Qed.

Section Facts.

Variable services : Services.t.

(** An admin that is stored is left alone. *)
Lemma seedAdmin_existing (d : AdminData.t) (w : World) :
  stored (AdminData.email d) (users w) <> None ->
  seedAdmin services d w =
    (Returned tt, print ("Admin already exists: " ++ AdminData.email d) w).
Proof.
  unfold stored, seedAdmin. intros H.
  cbv beta iota zeta delta [bind gets modify UserModel_findOne].
  destruct (find _ (users w)); [reflexivity | now elim H].
Qed.

(** An admin that is not stored is created, with a hashed password. *)
Lemma seedAdmin_missing (d : AdminData.t) (w : World) :
  stored (AdminData.email d) (users w) = None ->
  let hashed :=
    Services.argon2_hash services (entropy w) (AdminData.password d) in
  let u :=
    new_document services (Services.objectId services (S (entropy w)))
      (with_password hashed d) in
  seedAdmin services d w =
    (Returned tt,
     print ("Admin created: " ++ AdminData.email d)
       (emit (UserCreated u)
          (set_users (users w ++ [u]) (draw (draw w))))).
Proof.
  intros H. unfold stored in H. unfold seedAdmin.
  cbv beta iota zeta delta
    [bind gets modify UserModel_findOne Controller.hashPassword
     UserModel_create].
  rewrite H. cbn [users draw with_password AdminData.email]. rewrite H.
  reflexivity.
Qed.

(** One round of the loop: it returns, it appends at most one document,
    only for an email that was not stored, and the email is stored
    afterwards. *)
Lemma seedAdmin_round (d : AdminData.t) (w : World) :
  exists w' created,
    seedAdmin services d w = (Returned tt, w')
    /\ users w' = (users w ++ created)%list
    /\ stored (AdminData.email d) (users w') <> None
    /\ (forall u, In u created ->
          stored (AdminData.email d) (users w) = None
          /\ User.email u = AdminData.email d)
    /\ (stored (AdminData.email d) (users w) <> None ->
        created = [] /\ entropy w' = entropy w /\ events w' = events w).
Proof.
  destruct (stored (AdminData.email d) (users w)) eqn:E.
  - eexists. exists []. split; [|split; [|split; [|split]]].
    + apply seedAdmin_existing. rewrite E. discriminate.
    + cbn [users print]. now rewrite app_nil_r.
    + cbn [users print]. rewrite E. discriminate.
    + intros u [].
    + intros _. repeat split.
  - eexists. eexists. split; [|split; [|split; [|split]]].
    + apply (seedAdmin_missing d w E).
    + cbn [users print emit set_users]. reflexivity.
    + cbn [users print emit set_users]. now apply stored_last.
    + intros u [<-|[]]. split; reflexivity.
    + intros H. now elim H.
Qed.

Lemma seedSuperAdmin_unfold (w : World) :
  seedSuperAdmin services w =
    match seedAdmin services admin w with
    | (Returned _, w1) =>
        match seedAdmin services admin2 w1 with
        | (Returned _, w2) => (Returned tt, w2)
        | (Thrown e, w2) => (Thrown e, w2)
        end
    | (Thrown e, w1) => (Thrown e, w1)
    end.
Proof. reflexivity. Qed.

(** When both admins are stored, the routine only writes to the console. *)
Lemma seedSuperAdmin_present (w : World) :
  stored (AdminData.email admin) (users w) <> None ->
  stored (AdminData.email admin2) (users w) <> None ->
  seedSuperAdmin services w =
    (Returned tt,
     print ("Admin already exists: " ++ AdminData.email admin2)
       (print ("Admin already exists: " ++ AdminData.email admin) w)).
Proof.
  intros H1 H2. rewrite seedSuperAdmin_unfold.
  rewrite (seedAdmin_existing admin w H1).
  rewrite (seedAdmin_existing admin2); [reflexivity | exact H2].
Qed.

(** The routine returns; it appends documents only for seed emails that
    were not stored, and both seed emails are stored afterwards. *)
Lemma seedSuperAdmin_run (w : World) :
  exists w' created,
    seedSuperAdmin services w = (Returned tt, w')
    /\ users w' = (users w ++ created)%list
    /\ stored (AdminData.email admin) (users w') <> None
    /\ stored (AdminData.email admin2) (users w') <> None
    /\ (forall u, In u created ->
          stored (User.email u) (users w) = None
          /\ (User.email u = AdminData.email admin
              \/ User.email u = AdminData.email admin2)).
Proof.
  destruct (seedAdmin_round admin w)
    as [w1 [c1 [Hrun1 [Hus1 [Hst1 [Hnew1 _]]]]]].
  destruct (seedAdmin_round admin2 w1)
    as [w2 [c2 [Hrun2 [Hus2 [Hst2 [Hnew2 _]]]]]].
  exists w2, (c1 ++ c2)%list.
  split; [|split; [|split; [|split]]].
  - rewrite seedSuperAdmin_unfold, Hrun1, Hrun2. reflexivity.
  - rewrite Hus2, Hus1. now rewrite app_assoc.
  - rewrite Hus2. now apply stored_app_some.
  - exact Hst2.
  - intros u Hin. apply in_app_or in Hin. destruct Hin as [Hin|Hin].
    + destruct (Hnew1 u Hin) as [Habs Hem]. rewrite Hem. auto.
    + destruct (Hnew2 u Hin) as [Habs Hem]. rewrite Hem. split; [|auto].
      rewrite Hus1 in Habs. now apply stored_app_none in Habs.
Qed.

(** C10: [seedSuperAdmin] is idempotent.  A run returns and creates a
    record only for a seed admin whose email is not stored yet; both seed
    emails are stored afterwards.  A second run, and any run on a
    collection that already holds both seed emails, creates nothing and
    leaves the user collection unchanged. *)
Theorem seedSuperAdmin_idempotent (w : World) :
  let w1 := snd (seedSuperAdmin services w) in
  let w2 := snd (seedSuperAdmin services w1) in
  fst (seedSuperAdmin services w) = Returned tt
  /\ (exists created,
        users w1 = (users w ++ created)%list
        /\ forall u, In u created ->
             stored (User.email u) (users w) = None
             /\ (User.email u = AdminData.email admin
                 \/ User.email u = AdminData.email admin2))
  /\ fst (seedSuperAdmin services w1) = Returned tt
  /\ users w2 = users w1
  /\ events w2 = events w1
  /\ entropy w2 = entropy w1
  /\ (stored (AdminData.email admin) (users w) <> None ->
      stored (AdminData.email admin2) (users w) <> None ->
      users w1 = users w /\ events w1 = events w).
Proof.
  intros w1 w2. subst w2 w1.
  destruct (seedSuperAdmin_run w)
    as [w1 [created [Hrun [Hus [Hst1 [Hst2 Hnew]]]]]].
  rewrite Hrun. cbn [fst snd].
  rewrite (seedSuperAdmin_present w1 Hst1 Hst2). cbn [fst snd].
  split; [reflexivity|]. split; [exists created; auto|].
  split; [reflexivity|]. split; [reflexivity|].
  split; [reflexivity|]. split; [reflexivity|].
  intros H1 H2. rewrite (seedSuperAdmin_present w H1 H2) in Hrun.
  injection Hrun as <-. split; reflexivity.
Qed.

End Facts.

(** ** The routine at work on the concrete deployment *)

(** On a collection that holds the second admin only, the first run
    creates the first admin and the second run creates nothing. *)
Lemma seedSuperAdmin_idempotent_witness :
  let admin2_doc :=
    new_document Demo.services "oid7" (with_password "argon2$1qazxsw2" admin2) in
  let w := Demo.world [admin2_doc] [] 1000 in
  let w1 := snd (seedSuperAdmin Demo.services w) in
  map User.email (users w1) = ["admin@gmail.com"; "showershareny@gmail.com"]
  /\ users (snd (seedSuperAdmin Demo.services w1)) = users w1.
Proof.
  intros admin2_doc w w1.
  destruct (seedSuperAdmin_idempotent Demo.services w)
    as [_ [_ [_ [Hsame _]]]].
  split; [reflexivity | exact Hsame].
Defined.

End SeedFacts.

(* ===================================================================== *)
(** * More about the duplicate-key error handler                          *)
(* ===================================================================== *)

Module DuplicateErrorLaws.
Import DuplicateError.

(** What the lazy group captures: the text up to the next double quote,
    which holds no double quote and no line terminator. *)
Lemma lazy_group_Some (s g : jsstring) :
  lazy_group s = Some g ->
  exists post,
    s = (g ++ quote :: post)%list
    /\ ~ In quote g
    /\ (forall c, In c g -> is_line_terminator c = false).
Proof.
  revert g. induction s as [|c s IH]; intros g; simpl; [discriminate|].
  destruct (N.eqb_spec c quote) as [->|Hc].
  - intros H. injection H as <-. exists s. repeat split; auto.
    intros c [].
  - destruct (is_line_terminator c) eqn:Hlt; [discriminate|].
    destruct (lazy_group s) as [g'|]; [|discriminate].
    intros H. injection H as <-.
    destruct (IH g' eq_refl) as [post [-> [Hq Hl]]].
    exists post. split; [reflexivity|]. split.
    + intros [H|H]; [now apply Hc | now apply Hq].
    + intros d [<-|Hd]; [exact Hlt | now apply Hl].
Qed.

(** The lazy group succeeds as soon as a double quote comes before any
    line terminator. *)
Lemma lazy_group_reaches_quote (mid post : jsstring) :
  (forall c, In c mid -> is_line_terminator c = false) ->
  lazy_group (mid ++ quote :: post)%list <> None.
Proof.
  induction mid as [|c mid IH]; intros Hl; simpl.
  - discriminate.
  - destruct (c =? quote)%N; [discriminate|].
    rewrite (Hl c) by now left.
    destruct (lazy_group (mid ++ quote :: post)%list) eqn:E; [discriminate|].
    exfalso. apply IH; [|reflexivity]. intros d Hd. apply Hl. now right.
Qed.

Lemma match_quoted_Some (s g : jsstring) :
  match_quoted s = Some g ->
  exists pre post,
    s = (pre ++ quote :: g ++ quote :: post)%list
    /\ ~ In quote g
    /\ (forall c, In c g -> is_line_terminator c = false)
    /\ (forall p1 p2, pre = (p1 ++ quote :: p2)%list ->
          lazy_group (p2 ++ quote :: g ++ quote :: post)%list = None).
Proof.
  induction s as [|c s IH]; simpl; [discriminate|].
  assert (Hlater :
    match_quoted s = Some g ->
    (c = quote -> lazy_group s = None) ->
    exists pre post,
      c :: s = (pre ++ quote :: g ++ quote :: post)%list
      /\ ~ In quote g
      /\ (forall d, In d g -> is_line_terminator d = false)
      /\ (forall p1 p2, pre = (p1 ++ quote :: p2)%list ->
            lazy_group (p2 ++ quote :: g ++ quote :: post)%list = None)).
  { intros Hm Hfail.
    destruct (IH Hm) as [pre [post [Hs [Hq [Hl Hleft]]]]].
    exists (c :: pre), post. split; [now rewrite Hs|].
    split; [exact Hq|]. split; [exact Hl|].
    intros p1 p2 Hp. destruct p1 as [|d p1]; simpl in Hp.
    - injection Hp as Hc Hpre. rewrite <- Hpre, <- Hs. now apply Hfail.
    - injection Hp as _ Hpre. now apply (Hleft p1 p2). }
  destruct (N.eqb_spec c quote) as [Hc|Hc].
  - destruct (lazy_group s) as [g'|] eqn:Hg.
    + intros H. injection H as <-.
      destruct (lazy_group_Some s g' Hg) as [post [Hs [Hq Hl]]].
      exists [], post. split; [now rewrite Hc, Hs|].
      split; [exact Hq|]. split; [exact Hl|].
      intros p1 p2 Hp. destruct p1; discriminate.
    + intros Hm. apply Hlater; auto.
  - intros Hm. apply Hlater; [exact Hm|]. intros H. now elim Hc.
Qed.

(** X1: whenever the handler returns, its error message is a
    double-quoted substring of the underlying message followed by
    " is already exists!": the text between a double quote and the next
    one, free of double quotes and line terminators, and leftmost (no
    earlier double quote is closed on its line). *)
Theorem handlerDuplicateError_sound (err : MongooseError) (r : IErrorResponse) :
  handlerDuplicateError err = Returns r ->
  exists pre g post,
    message err = (pre ++ quote :: g ++ quote :: post)%list
    /\ errorMessage r = (g ++ code_units " is already exists!")%list
    /\ ~ In quote g
    /\ (forall c, In c g -> is_line_terminator c = false)
    /\ (forall p1 p2, pre = (p1 ++ quote :: p2)%list ->
          lazy_group (p2 ++ quote :: g ++ quote :: post)%list = None)
    /\ success r = false /\ statusCode r = 409.
Proof.
  unfold handlerDuplicateError.
  destruct (match_quoted (message err)) as [g|] eqn:Hm; [|discriminate].
  intros H. injection H as <-.
  destruct (match_quoted_Some _ g Hm) as [pre [post [Hs [Hq [Hl Hleft]]]]].
  exists pre, g, post. cbn. repeat split; auto.
Qed.

Lemma handlerDuplicateError_sound_witness :
  exists pre g post,
    DuplicateErrorFacts.duplicate_email_message
      = (pre ++ quote :: g ++ quote :: post)%list
    /\ g = code_units "ada@example.com".
Proof.
  destruct (handlerDuplicateError_sound
              {| message := DuplicateErrorFacts.duplicate_email_message |}
              {| success := false;
                 statusCode := 409;
                 errorType := "Duplicate Error";
                 errorMessage :=
                   code_units "ada@example.com is already exists!";
                 errorDetails :=
                   {| message := DuplicateErrorFacts.duplicate_email_message |} |})
    as [pre [g [post [Hs [Hg _]]]]].
  - reflexivity.
  - exists pre, g, post. split; [exact Hs|].
    apply (app_inv_tail (code_units " is already exists!")).
    symmetry. exact Hg.
Defined.

Lemma match_quoted_finds (pre mid post : jsstring) :
  (forall c, In c mid -> is_line_terminator c = false) ->
  match_quoted (pre ++ quote :: mid ++ quote :: post)%list <> None.
Proof.
  intros Hl. induction pre as [|c pre IH]; simpl.
  - destruct (lazy_group (mid ++ quote :: post)%list) eqn:E; [discriminate|].
    exfalso. now apply (lazy_group_reaches_quote mid post Hl).
  - destruct (c =? quote)%N; [|exact IH].
    destruct (lazy_group _); [discriminate | exact IH].
Qed.

(** X2: the handler returns a response exactly when the message has two
    double quotes with no line terminator between them; on every other
    message it throws the TypeError. *)
Theorem handlerDuplicateError_returns_iff (err : MongooseError) :
  (exists r, handlerDuplicateError err = Returns r)
  <-> (exists pre mid post,
         message err = (pre ++ quote :: mid ++ quote :: post)%list
         /\ forall c, In c mid -> is_line_terminator c = false).
Proof.
  split.
  - intros [r Hr]. unfold handlerDuplicateError in Hr.
    destruct (match_quoted (message err)) as [g|] eqn:Hm; [|discriminate].
    destruct (match_quoted_Some _ g Hm) as [pre [post [Hs [_ [Hl _]]]]].
    exists pre, g, post. auto.
  - intros [pre [mid [post [Hs Hl]]]]. unfold handlerDuplicateError.
    rewrite Hs.
    destruct (match_quoted _) eqn:E.
    + eexists. reflexivity.
    + exfalso. now apply (match_quoted_finds pre mid post Hl).
Qed.

End DuplicateErrorLaws.

(* ===================================================================== *)
(** * More about the JavaScript primitives                                *)
(* ===================================================================== *)

Module JsLaws.
Import Js.

Lemma digits_acc (d : Decimal.uint) (acc : positive) :
  digits 10 (Some (Z.pos acc)) (NilEmpty.string_of_uint d)
    = Some (Z.pos (Pos.of_uint_acc d acc)).
Proof.
  revert acc. induction d; intros acc;
    cbn [NilEmpty.string_of_uint digits Pos.of_uint_acc];
    [reflexivity|..];
    match goal with
    | |- context [digit_value 10 ?c] =>
        let v := eval vm_compute in (digit_value 10 c) in
        change (digit_value 10 c) with v
    end;
    cbv beta iota; rewrite <- IHd; f_equal; f_equal; lia.
Qed.

Lemma digits_zero (d : Decimal.uint) :
  digits 10 (Some 0) (NilEmpty.string_of_uint d)
    = Some (Z.of_N (Pos.of_uint d)).
Proof.
  induction d; cbn [NilEmpty.string_of_uint digits Pos.of_uint];
    [reflexivity|..];
    match goal with
    | |- context [digit_value 10 ?c] =>
        let v := eval vm_compute in (digit_value 10 c) in
        change (digit_value 10 c) with v
    end;
    cbv beta iota; [exact IHd|..]; apply digits_acc.
Qed.

Lemma digits_start (d : Decimal.uint) :
  d <> Decimal.Nil ->
  digits 10 None (NilEmpty.string_of_uint d)
    = Some (Z.of_N (Pos.of_uint d)).
Proof.
  intros Hd. rewrite <- digits_zero.
  destruct d; [now elim Hd|..]; reflexivity.
Qed.

Lemma parseInt_unsigned (d : Decimal.uint) :
  d <> Decimal.Nil ->
  parseInt (NilEmpty.string_of_uint d) = Some (Z.of_N (Pos.of_uint d)).
Proof.
  intros Hd.
  assert (H : parseInt (NilEmpty.string_of_uint d) =
              match digits 10 None (NilEmpty.string_of_uint d) with
              | Some v => Some (1 * v)
              | None => None
              end).
  { destruct d as [|d|d|d|d|d|d|d|d|d|d]; [now elim Hd|..];
      destruct d; reflexivity. }
  rewrite H, digits_start by exact Hd. f_equal; lia.
Qed.

Lemma parseInt_negative (d : Decimal.uint) :
  d <> Decimal.Nil ->
  parseInt (String "-" (NilEmpty.string_of_uint d))
    = Some (- Z.of_N (Pos.of_uint d)).
Proof.
  intros Hd.
  assert (H : parseInt (String "-" (NilEmpty.string_of_uint d)) =
              match digits 10 None (NilEmpty.string_of_uint d) with
              | Some v => Some (-1 * v)
              | None => None
              end).
  { destruct d as [|d|d|d|d|d|d|d|d|d|d]; [now elim Hd|..];
      destruct d; reflexivity. }
  rewrite H, digits_start by exact Hd. f_equal; lia.
Qed.

(** [parseInt] reads back the decimal rendering of every integer. *)
Lemma parseInt_number_to_string (n : Z) :
  parseInt (number_to_string n) = Some n.
Proof.
  unfold number_to_string. destruct n as [|p|p]; [reflexivity|..];
    cbn [Z.to_int NilZero.string_of_int];
    pose proof (DecimalPos.Unsigned.to_uint_nonnil p) as Hnil;
    assert (Hs : NilZero.string_of_uint (Pos.to_uint p)
                 = NilEmpty.string_of_uint (Pos.to_uint p))
      by (destruct (Pos.to_uint p); [now elim Hnil|..]; reflexivity);
    rewrite Hs.
  - rewrite parseInt_unsigned, DecimalPos.Unsigned.of_to by exact Hnil. reflexivity.
  - rewrite parseInt_negative, DecimalPos.Unsigned.of_to by exact Hnil. reflexivity.
Qed.

(** Which pages hold something: page [p] starts before the end of [t]
    items exactly when [p] is at most the number of pages. *)
Lemma page_in_range (t l p : Z) :
  0 < l -> 0 <= t -> ((p - 1) * l < t <-> p <= ceil_div t l).
Proof.
  intros Hl Ht. unfold ceil_div.
  pose proof (Z.div_mod (- t) l ltac:(lia)) as Hdm.
  pose proof (Z.mod_pos_bound (- t) l Hl) as Hmod.
  split; intros H; nia.
Qed.

End JsLaws.

(* ===================================================================== *)
(** * More about the user controller                                      *)
(* ===================================================================== *)

Module ControllerLaws.
Import Controller.
Import ControllerFacts.

(** ** The collections *)

(** A record is found under its email right after its upsert. *)
Lemma find_upsert_same (r : OTP.t) (os : list OTP.t) :
  find (fun o => (OTP.email o =? OTP.email r)%string) (upsert r os) = Some r.
Proof.
  induction os as [|o os IH]; simpl.
  - now rewrite String.eqb_refl.
  - destruct (OTP.email o =? OTP.email r)%string eqn:E; simpl.
    + now rewrite String.eqb_refl.
    + now rewrite E.
Qed.

(** Saving a copy that keeps the identifier keeps all identifiers. *)
Lemma ids_replace_by_id (us : list User.t) (u' : User.t) :
  map User._id (replace_by_id u' us) = map User._id us.
Proof.
  induction us as [|v us IH]; simpl; [reflexivity|].
  destruct (User._id v =? User._id u')%string eqn:E; simpl.
  - apply String.eqb_eq in E. now rewrite E.
  - now rewrite IH.
Qed.




Section Laws.

Variable services : Services.t.

(** ** resendOTP and forgotPassword *)

Lemma cooldown_over (email : string) (w : World) (r : OTP.t) :
  no_cooldown email w ->
  find (fun o => (OTP.email o =? email)%string) (otps w) = Some r ->
  (OTP.expiresAt r >? clock w) = false.
Proof.
  intros Hcool Hr. specialize (Hcool r Hr).
  rewrite Z.gtb_ltb. now apply Z.ltb_ge.
Qed.

(** What a resend does once the cooldown is over. *)
Lemma resendOTP_issues (req : Request.t) (w : World) (decoded : Payload.t) :
  Services.verifyToken services (Request.authorization req) = Returned decoded ->
  no_cooldown (Payload.email decoded) w ->
  let email := Payload.email decoded in
  let otp := Services.otp_code services (entropy w) in
  let stored :=
    {| OTP.email := email; OTP.otp := otp;
       OTP.expiresAt := clock w + Services.OTP_TTL services |} in
  exists w' sent mail,
    resendOTP services req w = (Returned tt, w')
    /\ events w' =
         (events w ++ [Responded sent; EmailDispatched mail; OtpSaved stored])%list
    /\ Response.statusCode sent = 200
    /\ Email.recipient mail = email /\ Email.otp mail = otp
    /\ otps w' = upsert stored (otps w)
    /\ users w' = users w
    /\ clock w' = clock w
    /\ entropy w' = S (entropy w).
Proof.
  intros Htok Hcool. cbv zeta.
  unfold resendOTP. rewrite Htok. unfold_monad.
  destruct (find _ (otps w)) as [r|] eqn:Hr;
    [rewrite (cooldown_over _ w r Hcool Hr)|];
    do 3 eexists; (split; [reflexivity|]); cbn;
    rewrite <- ?app_assoc; repeat split.
Qed.

(** X3: [resendOTP] returns normally exactly when the token verifies and
    no unexpired OTP record is stored for the email of the token.  In
    every other case it throws and leaves the world as it is: the 401
    "Invalid token" error when the token does not verify, whatever the
    verifier threw, and the 403 cooldown error when an unexpired record is
    stored. *)
Theorem resendOTP_returns_iff (req : Request.t) (w : World) :
  (fst (resendOTP services req w) = Returned tt
   <-> exists decoded,
         Services.verifyToken services (Request.authorization req)
           = Returned decoded
         /\ no_cooldown (Payload.email decoded) w)
  /\ (forall e,
        Services.verifyToken services (Request.authorization req) = Thrown e ->
        resendOTP services req w =
          (Thrown (ApiError 401 "Invalid token"), w))
  /\ (forall decoded r,
        Services.verifyToken services (Request.authorization req)
          = Returned decoded ->
        find (fun o => (OTP.email o =? Payload.email decoded)%string) (otps w)
          = Some r ->
        OTP.expiresAt r > clock w ->
        resendOTP services req w =
          (Thrown (ApiError 403
                     ("You can't request another OTP before "
                        ++ Js.number_to_string
                             (Js.floor_div (OTP.expiresAt r - clock w) 1000)
                        ++ " seconds.")), w)).
Proof.
  split; [split|split].
  - intros Hret.
    destruct (Services.verifyToken services (Request.authorization req))
      as [decoded|e] eqn:Htok.
    + exists decoded. split; [reflexivity|]. intros r Hr.
      destruct (Z.le_gt_cases (OTP.expiresAt r) (clock w)) as [H|H];
        [exact H|].
      rewrite (resendOTP_cooldown services req w decoded r Htok Hr) in Hret
        by lia.
      discriminate Hret.
    + unfold resendOTP in Hret. rewrite Htok in Hret. discriminate Hret.
  - intros [decoded [Htok Hcool]].
    destruct (resendOTP_issues req w decoded Htok Hcool)
      as [w' [sent [mail [Hrun _]]]].
    now rewrite Hrun.
  - intros e Htok. unfold resendOTP. rewrite Htok. reflexivity.
  - intros decoded r Htok Hr Hexp.
    now apply (resendOTP_cooldown services req w decoded r).
Qed.

(** X4: a resend that goes through starts a cooldown of its own.  The
    code it stores is found under the email, expires OTP_TTL after the
    request, and any further resend before that moment fails with the
    403 cooldown error, reports at most OTP_TTL / 1000 seconds and
    leaves the stored code in place. *)
Theorem resendOTP_then_cooldown
    (req : Request.t) (w : World) (decoded : Payload.t) :
  Services.verifyToken services (Request.authorization req) = Returned decoded ->
  no_cooldown (Payload.email decoded) w ->
  let w1 := snd (resendOTP services req w) in
  let stored :=
    {| OTP.email := Payload.email decoded;
       OTP.otp := Services.otp_code services (entropy w);
       OTP.expiresAt := clock w + Services.OTP_TTL services |} in
  find (fun o => (OTP.email o =? Payload.email decoded)%string) (otps w1)
    = Some stored
  /\ forall w2,
       otps w2 = otps w1 ->
       clock w <= clock w2 < clock w + Services.OTP_TTL services ->
       resendOTP services req w2 =
         (Thrown (ApiError 403
                    (cooldown_message (remainingTime stored (clock w2)))), w2)
       /\ remainingTime stored (clock w2) <= Services.OTP_TTL services / 1000.
Proof.
  intros Htok Hcool w1 stored.
  destruct (resendOTP_issues req w decoded Htok Hcool)
    as [w' [sent [mail [Hrun [_ [_ [_ [_ [Hotps _]]]]]]]]].
  assert (Hfind :
    find (fun o => (OTP.email o =? Payload.email decoded)%string) (otps w1)
      = Some stored).
  { subst w1. rewrite Hrun. cbn [snd]. rewrite Hotps.
    apply (find_upsert_same stored). }
  split; [exact Hfind|].
  intros w2 Hsame Hwin. split.
  - apply (resendOTP_cooldown services req w2 decoded stored Htok).
    + rewrite Hsame. exact Hfind.
    + cbn [OTP.expiresAt stored]. lia.
  - unfold remainingTime. cbn [OTP.expiresAt stored].
    apply floor_div_monotone. lia.
Qed.

Lemma forgotPassword_cooldown (req : Request.t) (w : World)
    (user : User.t) (r : OTP.t) :
  let email := Body.email (Request.body req) in
  Js.truthy email = true ->
  find (fun u => (User.email u =? email)%string) (users w) = Some user ->
  find (fun o => (OTP.email o =? email)%string) (otps w) = Some r ->
  OTP.expiresAt r > clock w ->
  forgotPassword services req w =
    (Thrown (ApiError 403 (cooldown_message (remainingTime r (clock w)))), w).
Proof.
  intros email Hemail Hfind Hr Hexp. subst email.
  unfold forgotPassword. rewrite Hemail. cbn [negb]. unfold_monad.
  rewrite Hfind, Hr.
  assert ((OTP.expiresAt r >? clock w) = true) as -> by (apply Z.gtb_lt; lia).
  reflexivity.
Qed.

(** X5: [forgotPassword] enforces the cooldown of [resendOTP].  For the
    email of an existing user with an unexpired OTP record, a
    forgot-password request and a resend request whose token carries that
    email end the same way: the same 403 error, nothing sent, nothing
    stored. *)
Theorem forgotPassword_shares_cooldown
    (req : Request.t) (w : World) (decoded : Payload.t)
    (user : User.t) (r : OTP.t) :
  Services.verifyToken services (Request.authorization req) = Returned decoded ->
  Body.email (Request.body req) = Payload.email decoded ->
  Js.truthy (Payload.email decoded) = true ->
  find (fun u => (User.email u =? Payload.email decoded)%string) (users w)
    = Some user ->
  find (fun o => (OTP.email o =? Payload.email decoded)%string) (otps w)
    = Some r ->
  OTP.expiresAt r > clock w ->
  forgotPassword services req w = resendOTP services req w
  /\ forgotPassword services req w =
       (Thrown (ApiError 403 (cooldown_message (remainingTime r (clock w)))), w).
Proof.
  intros Htok Hbody Hemail Hfind Hr Hexp.
  rewrite (resendOTP_cooldown services req w decoded r Htok Hr Hexp).
  assert (H := forgotPassword_cooldown req w user r).
  cbv zeta in H. rewrite Hbody in H.
  rewrite (H Hemail Hfind Hr Hexp). split; reflexivity.
Qed.

(** ** loginUser *)

(** X6: [loginUser] sends a 200 response only for a user record that is
    found, not soft-deleted, not locked, verified, and whose stored hash
    verifies the submitted password. *)
Theorem loginUser_200_only_if (req : Request.t) (w : World) :
  exists evs,
    events (snd (loginUser services req w)) = (events w ++ evs)%list
    /\ forall r,
         In (Responded r) evs -> Response.statusCode r = 200 ->
         exists user,
           find (fun u => (User.email u =? Body.email (Request.body req))%string)
                (users w) = Some user
           /\ User.isDeleted user = false
           /\ User.isVerified user = true
           /\ Services.validateUserLockStatus services user = Returned tt
           /\ Services.argon2_verify services (User.password user)
                (Body.password (Request.body req)) = Returned true.
Proof.
  unfold loginUser. unfold_monad.
  destruct (find _ (users w)) as [user|] eqn:Hfind;
    [|exists []; split; [now rewrite app_nil_r | intros r []]].
  destruct (User.isDeleted user) eqn:Hdel;
    [exists []; split; [now rewrite app_nil_r | intros r []]|].
  destruct (Services.validateUserLockStatus services user) as [[]|e] eqn:Hlock;
    [|exists []; split; [now rewrite app_nil_r | intros r []]].
  destruct (User.isVerified user) eqn:Hver; cbn [negb]; cbv beta iota.
  - destruct (Services.argon2_verify services (User.password user)
                (Body.password (Request.body req))) as [[|]|e] eqn:Hpw;
      cbn [negb]; cbv beta iota;
      try (exists []; split; [now rewrite app_nil_r | intros r []]).
    eexists. split.
    + cbn [snd events emit set_users]. rewrite <- app_assoc. reflexivity.
    + intros r _ _. exists user. auto.
  - eexists. split.
    + cbn [snd events emit set_otps print draw].
      rewrite <- !app_assoc. reflexivity.
    + intros r [H|[H|[H|[]]]] Hcode; try discriminate H.
      injection H as <-. discriminate Hcode.
Qed.

(** The run of [loginUser] on a verified account whose password
    verifies. *)
Lemma loginUser_accepts (req : Request.t) (w : World) (user : User.t) :
  find (fun u => (User.email u =? Body.email (Request.body req))%string) (users w)
    = Some user ->
  User.isDeleted user = false ->
  Services.validateUserLockStatus services user = Returned tt ->
  User.isVerified user = true ->
  Services.argon2_verify services (User.password user)
    (Body.password (Request.body req)) = Returned true ->
  let saved := User.with_fcmToken (Body.fcmToken (Request.body req)) user in
  exists w' sent image,
    loginUser services req w = (Returned tt, w')
    /\ events w' = (events w ++ [Responded sent; UserSaved saved])%list
    /\ Response.statusCode sent = 200
    /\ Response.data sent =
         JObj [("user",
                JObj [("_id", JStr (User._id user));
                      ("name", JStr (User.name user));
                      ("email", JStr (User.email user));
                      ("image", JStr image);
                      ("role", JStr (User.role user));
                      ("profile_status", JOpt (User.profile_status user))]);
               ("token", JStr (session_token services user))]
    /\ users w' = replace_by_id saved (users w)
    /\ otps w' = otps w
    /\ entropy w' = entropy w.
Proof.
  intros Hfind Hdel Hlock Hver Hpw saved. do 3 eexists. split.
  - unfold loginUser. unfold_monad.
    rewrite Hfind, Hdel, Hlock, Hver, Hpw. cbn [negb]. cbv beta iota.
    reflexivity.
  - cbn. rewrite <- app_assoc. repeat split.
Qed.

(** X7: on a verified account that is found, not soft-deleted and not
    locked, the password decides.  A hash that does not verify gives the
    401 error and an unchanged world.  A hash that verifies gives the 200
    response, whose user projection has the identifier, name, email,
    image, role and profile status but not the password hash, and then
    the push token of the request is saved on the record: the saved
    record holds the token of the request in its fcmToken field and the
    other fields of the user, the password hash among them; it is in the
    collection afterwards, and with unique identifiers it is the record
    found under the email. *)
Theorem loginUser_verified_account
    (req : Request.t) (w : World) (user : User.t) :
  find (fun u => (User.email u =? Body.email (Request.body req))%string) (users w)
    = Some user ->
  User.isDeleted user = false ->
  Services.validateUserLockStatus services user = Returned tt ->
  User.isVerified user = true ->
  (Services.argon2_verify services (User.password user)
     (Body.password (Request.body req)) = Returned false ->
   loginUser services req w = (Thrown (ApiError 401 "Wrong password!"), w))
  /\ (Services.argon2_verify services (User.password user)
        (Body.password (Request.body req)) = Returned true ->
      let saved := User.with_fcmToken (Body.fcmToken (Request.body req)) user in
      exists w' sent image,
        loginUser services req w = (Returned tt, w')
        /\ events w' = (events w ++ [Responded sent; UserSaved saved])%list
        /\ Response.statusCode sent = 200
        /\ Response.data sent =
             JObj [("user",
                    JObj [("_id", JStr (User._id user));
                          ("name", JStr (User.name user));
                          ("email", JStr (User.email user));
                          ("image", JStr image);
                          ("role", JStr (User.role user));
                          ("profile_status", JOpt (User.profile_status user))]);
                   ("token", JStr (session_token services user))]
        /\ users w' = replace_by_id saved (users w)
        /\ otps w' = otps w
        /\ entropy w' = entropy w
        /\ User.fcmToken saved = Body.fcmToken (Request.body req)
        /\ User.password saved = User.password user
        /\ account saved = account user
        /\ User.isDeleted saved = User.isDeleted user
        /\ In saved (users w')
        /\ (NoDup (map User._id (users w)) ->
            find (fun u => (User.email u =? Body.email (Request.body req))%string)
                 (users w') = Some saved)).
Proof.
  intros Hfind Hdel Hlock Hver. split; intros Hpw.
  - unfold loginUser. unfold_monad.
    rewrite Hfind, Hdel, Hlock, Hver, Hpw. reflexivity.
  - intros saved.
    destruct (loginUser_accepts req w user Hfind Hdel Hlock Hver Hpw)
      as [w' [sent [image [Hrun [Hev [Hcode [Hdata [Hus [Hotps Hent]]]]]]]]].
    assert (Hem : User.email user = Body.email (Request.body req)).
    { pose proof (find_some _ _ Hfind) as [_ H].
      now apply String.eqb_eq in H. }
    exists w', sent, image.
    split; [exact Hrun|]. split; [exact Hev|]. split; [exact Hcode|].
    split; [exact Hdata|]. split; [exact Hus|]. split; [exact Hotps|].
    split; [exact Hent|]. split; [reflexivity|]. split; [reflexivity|].
    split; [reflexivity|]. split; [reflexivity|]. split.
    + rewrite Hus. apply (In_replace_by_id (users w) user saved).
      * now apply find_some in Hfind.
      * reflexivity.
    + intros Hnd. rewrite Hus, <- Hem.
      apply (find_email_replace_by_id (users w) user saved Hnd).
      * now rewrite Hem.
      * reflexivity.
      * reflexivity.
Qed.

(** ** adminloginUser *)

(** X8: [adminloginUser] reads and answers, it stores nothing; and it
    sends a response, the one that carries the token, only for a record
    that is found, has the admin role, and whose stored hash verifies the
    submitted password. *)
Theorem adminloginUser_token_only_for_admin (req : Request.t) (w : World) :
  let w' := snd (adminloginUser services req w) in
  users w' = users w /\ otps w' = otps w /\ entropy w' = entropy w
  /\ exists evs,
       events w' = (events w ++ evs)%list
       /\ forall r,
            In (Responded r) evs ->
            exists user,
              find (fun u => (User.email u =? Body.email (Request.body req))%string)
                   (users w) = Some user
              /\ User.role user = "admin"
              /\ Services.argon2_verify services (User.password user)
                   (Body.password (Request.body req)) = Returned true.
Proof.
  unfold adminloginUser. unfold_monad.
  destruct (find _ (users w)) as [user|] eqn:Hfind;
    [|repeat split; exists []; split; [now rewrite app_nil_r | intros r []]].
  destruct (String.eqb_spec (User.role user) "admin") as [Hrole|Hrole];
    cbn [negb]; cbv beta iota;
    [|repeat split; exists []; split; [now rewrite app_nil_r | intros r []]].
  destruct (Services.argon2_verify services (User.password user)
              (Body.password (Request.body req))) as [[|]|e] eqn:Hpw;
    cbn [negb]; cbv beta iota;
    try (repeat split; exists []; split;
         [now rewrite app_nil_r | intros r []]).
  repeat split. eexists. split; [reflexivity|].
  intros r _. exists user. auto.
Qed.

(** ** deleteUser *)

(** X9: [deleteUser] changes the collection only when the requester is
    the target account itself and carries the admin role in its token,
    and the target exists and is not deleted yet: nobody deletes another
    account, and a requester without the admin role deletes nothing. *)
Theorem deleteUser_only_own_admin_account (req : Request.t) (w : World) :
  users (snd (deleteUser req w)) <> users w ->
  exists requester target,
    Request.user req = Some requester
    /\ Payload.id requester = Query.id (Request.query req)
    /\ Payload.role requester = "admin"
    /\ find (fun u => (User._id u =? Query.id (Request.query req))%string)
            (users w) = Some target
    /\ User.isDeleted target = false.
Proof.
  unfold deleteUser, user_id_differs, user_role_not_admin. unfold_monad.
  destruct (find _ (users w)) as [target|] eqn:Hfind; [|intros H; now elim H].
  destruct (User.isDeleted target) eqn:Hdel; [intros H; now elim H|].
  destruct (Request.user req) as [requester|];
    cbn [orb negb]; cbv beta iota; [|intros H; now elim H].
  destruct (String.eqb_spec (Payload.id requester) (Query.id (Request.query req)))
    as [Hid|Hid]; cbn [orb negb]; cbv beta iota; [|intros H; now elim H].
  destruct (String.eqb_spec (Payload.role requester) "admin") as [Hrole|Hrole];
    cbn [orb negb]; cbv beta iota; [|intros H; now elim H].
  intros _. exists requester, target. auto.
Qed.




(** ** changePassword and resetPassword *)

(** A login with the password that has just been saved on the record. *)
Lemma loginUser_after_save (login : Request.t) (w : World)
    (user : User.t) (salt : nat) :
  hash_verifies services ->
  NoDup (map User._id (users w)) ->
  find (fun u => (User.email u =? User.email user)%string) (users w)
    = Some user ->
  User.isDeleted user = false ->
  User.isVerified user = true ->
  let changed :=
    User.with_password
      (Services.argon2_hash services salt (Body.password (Request.body login)))
      user in
  Services.validateUserLockStatus services changed = Returned tt ->
  Body.email (Request.body login) = User.email user ->
  forall w1,
    users w1 = replace_by_id changed (users w) ->
    exists w2 sent,
      loginUser services login w1 = (Returned tt, w2)
      /\ In (Responded sent) (events w2)
      /\ Response.statusCode sent = 200.
Proof.
  intros Hhash Hnd Hfind Hdel Hver changed Hlock Hlogin w1 Hus.
  destruct (loginUser_accepts login w1 changed)
    as [w2 [sent [image [Hrun [Hev [Hcode _]]]]]].
  - rewrite Hlogin, Hus.
    now apply (find_email_replace_by_id (users w) user changed).
  - exact Hdel.
  - exact Hlock.
  - exact Hver.
  - apply Hhash.
  - exists w2, sent. split; [exact Hrun|]. split; [|exact Hcode].
    rewrite Hev. apply in_or_app. right. now left.
Qed.

(** X11: after a successful [changePassword] the new password is the one
    that logs in.  With unique identifiers and a hash function whose
    hashes verify their password, a verified, not deleted, not locked
    user who changed the password gets the 200 response from [loginUser]
    with the new password. *)
Theorem changePassword_then_login
    (req login : Request.t) (w : World) (decoded : Payload.t) (user : User.t) :
  hash_verifies services ->
  NoDup (map User._id (users w)) ->
  Js.truthy (Body.oldPassword (Request.body req)) = true ->
  Js.truthy (Body.newPassword (Request.body req)) = true ->
  Request.user req = Some decoded ->
  find (fun u => (User.email u =? Payload.email decoded)%string) (users w)
    = Some user ->
  Services.argon2_verify services (User.password user)
    (Body.oldPassword (Request.body req)) = Returned true ->
  User.isDeleted user = false ->
  User.isVerified user = true ->
  Body.email (Request.body login) = User.email user ->
  Body.password (Request.body login) = Body.newPassword (Request.body req) ->
  Services.validateUserLockStatus services
    (User.with_password
       (Services.argon2_hash services (entropy w)
          (Body.newPassword (Request.body req))) user) = Returned tt ->
  let w1 := snd (changePassword services req w) in
  fst (changePassword services req w) = Returned tt
  /\ exists w2 sent,
       loginUser services login w1 = (Returned tt, w2)
       /\ In (Responded sent) (events w2)
       /\ Response.statusCode sent = 200.
Proof.
  intros Hhash Hnd Hold Hnew Huser Hfind Hpw Hdel Hver Hlogin Hlpw Hlock w1.
  destruct (changePassword_right_old services req w decoded user
              Hold Hnew Huser Hfind Hpw) as [w' [Hrun [Hus _]]].
  subst w1. rewrite Hrun. cbn [fst snd]. split; [reflexivity|].
  assert (Hem : User.email user = Payload.email decoded).
  { apply find_some in Hfind. destruct Hfind as [_ H].
    now apply String.eqb_eq in H. }
  rewrite <- Hem in Hfind. rewrite <- Hlpw in Hus, Hlock.
  now apply (loginUser_after_save login w user (entropy w)).
Qed.

(** What a reset does to an existing user. *)
Lemma resetPassword_sets_password
    (req : Request.t) (w : World) (decoded : Payload.t) (user : User.t) :
  Services.verifyToken services (Request.authorization req) = Returned decoded ->
  Js.truthy (Payload.role decoded) = true ->
  Js.truthy (Body.password (Request.body req)) = true ->
  find (fun u => (User.email u =? Payload.email decoded)%string) (users w)
    = Some user ->
  let changed :=
    User.with_password
      (Services.argon2_hash services (entropy w)
         (Body.password (Request.body req))) user in
  exists w' sent,
    resetPassword services req w = (Returned tt, w')
    /\ events w' = (events w ++ [Responded sent; UserSaved changed])%list
    /\ Response.statusCode sent = 200
    /\ users w' = replace_by_id changed (users w)
    /\ otps w' = otps w.
Proof.
  intros Htok Hrole Hpw Hfind changed. do 2 eexists. split.
  - unfold resetPassword. rewrite Htok, Hrole, Hpw. cbn [negb].
    unfold_monad. cbn [users emit]. rewrite Hfind. reflexivity.
  - cbn. rewrite <- app_assoc. repeat split.
Qed.

(** X12: [resetPassword] needs no old password and does not look at
    [isDeleted] or [isVerified]: with a token that carries a role and a
    non-empty password, it answers 200 and then replaces the hash of the
    user of the token's email.  With unique identifiers and a hash
    function whose hashes verify their password, a verified, not deleted,
    not locked user then gets the 200 response from [loginUser] with the
    password of the reset. *)
Theorem resetPassword_then_login
    (req login : Request.t) (w : World) (decoded : Payload.t) (user : User.t) :
  hash_verifies services ->
  NoDup (map User._id (users w)) ->
  Services.verifyToken services (Request.authorization req) = Returned decoded ->
  Js.truthy (Payload.role decoded) = true ->
  Js.truthy (Body.password (Request.body req)) = true ->
  find (fun u => (User.email u =? Payload.email decoded)%string) (users w)
    = Some user ->
  let changed :=
    User.with_password
      (Services.argon2_hash services (entropy w)
         (Body.password (Request.body req))) user in
  let w1 := snd (resetPassword services req w) in
  (fst (resetPassword services req w) = Returned tt
   /\ users w1 = replace_by_id changed (users w)
   /\ exists sent,
        events w1 = (events w ++ [Responded sent; UserSaved changed])%list
        /\ Response.statusCode sent = 200)
  /\ (User.isDeleted user = false ->
      User.isVerified user = true ->
      Services.validateUserLockStatus services changed = Returned tt ->
      Body.email (Request.body login) = User.email user ->
      Body.password (Request.body login) = Body.password (Request.body req) ->
      exists w2 sent,
        loginUser services login w1 = (Returned tt, w2)
        /\ In (Responded sent) (events w2)
        /\ Response.statusCode sent = 200).
Proof.
  intros Hhash Hnd Htok Hrole Hpw Hfind changed w1.
  destruct (resetPassword_sets_password req w decoded user
              Htok Hrole Hpw Hfind) as [w' [sent [Hrun [Hev [Hcode [Hus _]]]]]].
  subst w1. rewrite Hrun. cbn [fst snd]. split.
  - split; [reflexivity|]. split; [exact Hus|]. exists sent. auto.
  - intros Hdel Hver Hlock Hlogin Hlpw.
    assert (Hem : User.email user = Payload.email decoded).
    { apply find_some in Hfind. destruct Hfind as [_ H].
      now apply String.eqb_eq in H. }
    rewrite <- Hem in Hfind. subst changed.
    rewrite <- Hlpw in Hus, Hlock.
    now apply (loginUser_after_save login w user (entropy w)).
Qed.

(** X13: the failures of [changePassword] that are not a wrong old
    password reach the client with status 500: a missing old or new
    password, a request without an authenticated user, and an email that
    no user record has.  The handler throws plain errors there, which
    carry no status code, and its catch block gives them 500; the world
    is unchanged. *)
Theorem changePassword_plain_errors_are_500 (req : Request.t) (w : World) :
  (Js.truthy (Body.oldPassword (Request.body req)) = false
   \/ Js.truthy (Body.newPassword (Request.body req)) = false ->
   changePassword services req w =
     (Thrown (ApiError 500
                "Please provide both old password and new password."), w))
  /\ (Js.truthy (Body.oldPassword (Request.body req)) = true ->
      Js.truthy (Body.newPassword (Request.body req)) = true ->
      forall decoded,
        Request.user req = Some decoded ->
        find (fun u => (User.email u =? Payload.email decoded)%string) (users w)
          = None ->
        changePassword services req w =
          (Thrown (ApiError 500 "User not found."), w))
  /\ (Js.truthy (Body.oldPassword (Request.body req)) = true ->
      Js.truthy (Body.newPassword (Request.body req)) = true ->
      Request.user req = None ->
      exists m, changePassword services req w = (Thrown (ApiError 500 m), w)).
Proof.
  split; [|split].
  - intros H. unfold changePassword.
    assert (negb (Js.truthy (Body.oldPassword (Request.body req)))
            || negb (Js.truthy (Body.newPassword (Request.body req))) = true)
      as ->.
    { destruct H as [-> | ->]; [reflexivity | apply orb_true_r]. }
    reflexivity.
  - intros Hold Hnew decoded Huser Hfind.
    unfold changePassword. rewrite Hold, Hnew, Huser. cbn [negb orb].
    unfold_monad. rewrite Hfind. reflexivity.
  - intros Hold Hnew Huser. eexists.
    unfold changePassword. rewrite Hold, Hnew, Huser. reflexivity.
Qed.

(** ** getAllUsers *)

(** The run of [getAllUsers] for a valid token of an existing account. *)
Lemma getAllUsers_run
    (req : Request.t) (w : World) (decoded : Payload.t) (account : User.t) :
  Services.verifyToken services (Request.authorization req) = Returned decoded ->
  find (fun u => (User._id u =? Payload.id decoded)%string) (users w)
    = Some account ->
  let q := Request.query req in
  let page := Js.parseInt_or (Query.page q) 1 in
  let limit := Js.parseInt_or (Query.limit q) 10 in
  let matching := filter (Services.matchesFilters services q) (users w) in
  let total := Z.of_nat (List.length matching) in
  let items :=
    firstn (Z.to_nat limit) (skipn (Z.to_nat ((page - 1) * limit)) matching) in
  getAllUsers services req w =
    (Returned tt,
     emit (Responded
             (if (List.length items =? 0)%nat then
                {| Response.statusCode := 204;
                   Response.success := true;
                   Response.message := "No user found based on your search.";
                   Response.data := JArr [];
                   Response.pagination := None |}
              else
                {| Response.statusCode := 200;
                   Response.success := true;
                   Response.message := "User list retrieved successfully";
                   Response.data := JArr (map list_entry items);
                   Response.pagination :=
                     Some {| Pagination.totalPage := Js.ceil_div total limit;
                             Pagination.currentPage := page;
                             Pagination.prevPage :=
                               or_one (if page >? 1 then Some (page - 1)
                                       else None);
                             Pagination.nextPage :=
                               or_one (if page <? Js.ceil_div total limit
                                       then Some (page + 1) else None);
                             Pagination.limit := limit;
                             Pagination.totalItem := total |} |})) w).
Proof.
  intros Htok Hfind. cbv zeta.
  unfold getAllUsers, getUserList. rewrite Htok. unfold_monad.
  rewrite Hfind.
  destruct (List.length _ =? 0)%nat; reflexivity.
Qed.

Lemma page_length (A : Type) (l : list A) (page limit : Z) :
  1 <= page -> 0 < limit ->
  Z.of_nat
    (List.length (firstn (Z.to_nat limit)
                    (skipn (Z.to_nat ((page - 1) * limit)) l)))
  = Z.max 0 (Z.min limit (Z.of_nat (List.length l) - (page - 1) * limit)).
Proof.
  intros Hp Hl. rewrite length_firstn, length_skipn. nia.
Qed.

(** X14: a page that starts at or after the end of the matching users is
    answered with the 204 response, an empty data array and no
    pagination, and is no error: for page >= 1 and limit > 0 that is
    every page with (page - 1) * limit >= total, in particular every page
    of an empty result. *)
Theorem getAllUsers_page_past_the_end
    (req : Request.t) (w : World) (decoded : Payload.t) (account : User.t) :
  Services.verifyToken services (Request.authorization req) = Returned decoded ->
  find (fun u => (User._id u =? Payload.id decoded)%string) (users w)
    = Some account ->
  let q := Request.query req in
  let page := Js.parseInt_or (Query.page q) 1 in
  let limit := Js.parseInt_or (Query.limit q) 10 in
  let total :=
    Z.of_nat (List.length
                (filter (Services.matchesFilters services q) (users w))) in
  1 <= page -> 0 < limit ->
  total <= (page - 1) * limit ->
  getAllUsers services req w =
    (Returned tt,
     emit (Responded
             {| Response.statusCode := httpStatus.NO_CONTENT;
                Response.success := true;
                Response.message := "No user found based on your search.";
                Response.data := JArr [];
                Response.pagination := None |}) w).
Proof.
  intros Htok Hfind q page limit total Hp Hl Hout.
  rewrite (getAllUsers_run req w decoded account Htok Hfind). cbv zeta.
  fold q. fold page. fold limit.
  pose proof (page_length _
                (filter (Services.matchesFilters services q) (users w))
                page limit Hp Hl) as Hlen.
  fold total in Hlen.
  destruct (Nat.eqb_spec
              (List.length
                 (firstn (Z.to_nat limit)
                    (skipn (Z.to_nat ((page - 1) * limit))
                       (filter (Services.matchesFilters services q) (users w)))))
              0) as [E|E]; [reflexivity|].
  exfalso. lia.
Qed.

(** X15: within the safe integers (limit and total at most
    Number.MAX_SAFE_INTEGER, so that the numbers the handler computes are
    exact), a page that starts before the end of the matching users (page
    >= 1, limit > 0, (page - 1) * limit < total) is answered with the
    200 response.  Its data holds min(limit, total - (page - 1) * limit)
    entries; totalPage is ceil(total / limit) and the page is at most
    that, and a safe integer too; prevPage is page - 1, and 1 on the
    first page; nextPage is page + 1, and 1 on the last page. *)
Theorem getAllUsers_page_within_range
    (req : Request.t) (w : World) (decoded : Payload.t) (account : User.t) :
  Services.verifyToken services (Request.authorization req) = Returned decoded ->
  find (fun u => (User._id u =? Payload.id decoded)%string) (users w)
    = Some account ->
  let q := Request.query req in
  let page := Js.parseInt_or (Query.page q) 1 in
  let limit := Js.parseInt_or (Query.limit q) 10 in
  let matching := filter (Services.matchesFilters services q) (users w) in
  let total := Z.of_nat (List.length matching) in
  1 <= page -> 0 < limit ->
  limit <= Js.MAX_SAFE_INTEGER ->
  total <= Js.MAX_SAFE_INTEGER ->
  (page - 1) * limit < total ->
  exists r items pg,
    getAllUsers services req w = (Returned tt, emit (Responded r) w)
    /\ Response.statusCode r = 200
    /\ Response.data r = JArr (map list_entry items)
    /\ items = firstn (Z.to_nat limit)
                 (skipn (Z.to_nat ((page - 1) * limit)) matching)
    /\ Z.of_nat (List.length items) = Z.min limit (total - (page - 1) * limit)
    /\ Response.pagination r = Some pg
    /\ Pagination.totalPage pg = Js.ceil_div total limit
    /\ page <= Pagination.totalPage pg
    /\ Pagination.currentPage pg = page
    /\ Pagination.prevPage pg = (if page =? 1 then 1 else page - 1)
    /\ Pagination.nextPage pg =
         (if page =? Pagination.totalPage pg then 1 else page + 1)
    /\ Pagination.limit pg = limit
    /\ Pagination.totalItem pg = total
    /\ page <= Js.MAX_SAFE_INTEGER
    /\ (page - 1) * limit <= Js.MAX_SAFE_INTEGER.
Proof.
  intros Htok Hfind q page limit matching total Hp Hl Hsafe Hsafe' Hin.
  pose proof (page_length _ matching page limit Hp Hl) as Hlen.
  fold total in Hlen.
  assert (Hrange : page <= Js.ceil_div total limit).
  { apply JsLaws.page_in_range; [exact Hl | lia | exact Hin]. }
  rewrite (getAllUsers_run req w decoded account Htok Hfind). cbv zeta.
  fold q. fold page. fold limit. fold matching. fold total.
  set (items := firstn (Z.to_nat limit)
                  (skipn (Z.to_nat ((page - 1) * limit)) matching)) in *.
  destruct (Nat.eqb_spec (List.length items) 0) as [E|E]; [exfalso; lia|].
  do 3 eexists. split; [reflexivity|].
  split; [reflexivity|]. split; [reflexivity|]. split; [reflexivity|].
  split; [lia|]. split; [reflexivity|].
  cbn [Pagination.totalPage Pagination.currentPage Pagination.prevPage
       Pagination.nextPage Pagination.limit Pagination.totalItem].
  split; [reflexivity|]. split; [exact Hrange|]. split; [reflexivity|].
  split; [|split; [|split; [reflexivity|split; [reflexivity|split; nia]]]].
  - destruct (Z.eqb_spec page 1) as [Heq|Hne].
    + rewrite Heq. reflexivity.
    + assert ((page >? 1) = true) as -> by (apply Z.gtb_lt; lia).
      reflexivity.
  - destruct (Z.eqb_spec page (Js.ceil_div total limit)) as [Heq|Hne].
    + rewrite <- Heq, Z.ltb_irrefl. reflexivity.
    + assert ((page <? Js.ceil_div total limit) = true) as ->
        by (apply Z.ltb_lt; lia).
      reflexivity.
Qed.

(** X16: how [getAllUsers] reads the page and limit parameters.  A
    parameter that is the decimal rendering of a safe integer other than
    0 is taken as that integer; 0, the empty (or absent) parameter and
    text in which [parseInt] finds no digit fall back to the default; so
    the limit, whose default is 10, is never 0. *)
Theorem parseInt_or_reads_decimal (n d : Z) :
  - Js.MAX_SAFE_INTEGER <= n <= Js.MAX_SAFE_INTEGER ->
  Js.parseInt_or (Js.number_to_string n) d = (if n =? 0 then d else n)
  /\ Js.parseInt_or "" d = d
  /\ (forall s, Js.parseInt s = None -> Js.parseInt_or s d = d)
  /\ (forall s, d <> 0 -> Js.parseInt_or s d <> 0).
Proof.
  intros _. split; [|split; [reflexivity|split]].
  - unfold Js.parseInt_or. rewrite JsLaws.parseInt_number_to_string.
    destruct (n =? 0); reflexivity.
  - intros s H. unfold Js.parseInt_or. now rewrite H.
  - intros s Hd. unfold Js.parseInt_or.
    destruct (Js.parseInt s) as [v|]; [|exact Hd].
    destruct (Z.eqb_spec v 0); assumption.
Qed.

(** ** What no handler does to the accounts *)

Lemma accounts_replace_by_id (us : list User.t) (user u' : User.t) :
  NoDup (map User._id us) ->
  In user us ->
  account u' = account user ->
  map account (replace_by_id u' us) = map account us.
Proof.
  intros Hnd Hin Hacc.
  assert (Hid : User._id u' = User._id user) by (now injection Hacc).
  induction us as [|v us IH]; simpl in *; [reflexivity|].
  inversion Hnd as [|x xs Hnotin Hnd']; subst.
  destruct (User._id v =? User._id u')%string eqn:E; simpl.
  - apply String.eqb_eq in E. destruct Hin as [->|Hin].
    + now rewrite Hacc.
    + exfalso. apply Hnotin. rewrite E, Hid. now apply in_map.
  - destruct Hin as [->|Hin].
    + rewrite Hid, String.eqb_refl in E. discriminate E.
    + now rewrite IH.
Qed.

Lemma accounts_mark_deleted (id : string) (us : list User.t) :
  map account (mark_deleted id us) = map account us.
Proof.
  induction us as [|v us IH]; simpl; [reflexivity|].
  destruct (User._id v =? id)%string; simpl; [reflexivity | now rewrite IH].
Qed.

Lemma loginUser_keeps_accounts (req : Request.t) (w : World) :
  NoDup (map User._id (users w)) ->
  map account (users (snd (loginUser services req w))) = map account (users w).
Proof.
  intros Hnd. unfold loginUser. unfold_monad.
  destruct (find _ (users w)) as [user|] eqn:Hfind; [|reflexivity].
  destruct (User.isDeleted user); [reflexivity|].
  destruct (Services.validateUserLockStatus services user) as [[]|e];
    [|reflexivity].
  destruct (User.isVerified user); cbn [negb]; cbv beta iota;
    [|reflexivity].
  destruct (Services.argon2_verify services (User.password user)
              (Body.password (Request.body req))) as [[|]|e];
    cbn [negb]; cbv beta iota; try reflexivity.
  cbn [snd users emit set_users].
  apply (accounts_replace_by_id (users w) user);
    [exact Hnd | now apply find_some in Hfind | reflexivity].
Qed.

Lemma resetPassword_keeps_accounts (req : Request.t) (w : World) :
  NoDup (map User._id (users w)) ->
  map account (users (snd (resetPassword services req w)))
    = map account (users w).
Proof.
  intros Hnd. unfold resetPassword. unfold_monad.
  destruct (Services.verifyToken services (Request.authorization req));
    [|reflexivity].
  destruct (Js.truthy (Payload.role a)); cbn [negb]; [|reflexivity].
  destruct (Js.truthy (Body.password (Request.body req))); cbn [negb];
    [|reflexivity].
  cbn [users emit].
  destruct (find _ (users w)) as [user|] eqn:Hfind; [|reflexivity].
  cbn [snd users emit set_users draw].
  apply (accounts_replace_by_id (users w) user);
    [exact Hnd | now apply find_some in Hfind | reflexivity].
Qed.

Lemma changePassword_keeps_accounts (req : Request.t) (w : World) :
  NoDup (map User._id (users w)) ->
  map account (users (snd (changePassword services req w)))
    = map account (users w).
Proof.
  intros Hnd. unfold changePassword. unfold_monad.
  destruct (negb (Js.truthy (Body.oldPassword (Request.body req)))
            || negb (Js.truthy (Body.newPassword (Request.body req))));
    [reflexivity|].
  destruct (Request.user req) as [decoded|]; [|reflexivity].
  destruct (find _ (users w)) as [user|] eqn:Hfind; [|reflexivity].
  destruct (Services.argon2_verify services (User.password user)
              (Body.oldPassword (Request.body req))) as [[|]|e];
    cbn [negb]; cbv beta iota; try reflexivity.
  cbn [snd users emit set_users draw].
  apply (accounts_replace_by_id (users w) user);
    [exact Hnd | now apply find_some in Hfind | reflexivity].
Qed.

Lemma deleteUser_keeps_accounts (req : Request.t) (w : World) :
  map account (users (snd (deleteUser req w))) = map account (users w).
Proof.
  unfold deleteUser. unfold_monad.
  destruct (find _ (users w)) as [user|]; [|reflexivity].
  destruct (User.isDeleted user); [reflexivity|].
  destruct (user_id_differs req (Query.id (Request.query req))
            || user_role_not_admin req); [reflexivity|].
  cbn [snd users emit set_users]. apply accounts_mark_deleted.
Qed.

Lemma forgotPassword_keeps_users (req : Request.t) (w : World) :
  users (snd (forgotPassword services req w)) = users w.
Proof.
  unfold forgotPassword.
  destruct (negb (Js.truthy (Body.email (Request.body req)))); [reflexivity|].
  unfold_monad.
  destruct (find _ (users w)) as [user|]; [|reflexivity].
  destruct (find _ (otps w)) as [r|];
    [destruct (OTP.expiresAt r >? clock w); [reflexivity|]|];
    destruct (Services.deliver services _); reflexivity.
Qed.

Lemma resendOTP_keeps_users (req : Request.t) (w : World) :
  users (snd (resendOTP services req w)) = users w.
Proof.
  unfold resendOTP.
  destruct (Services.verifyToken services (Request.authorization req));
    [|reflexivity].
  unfold_monad.
  destruct (find _ (otps w)) as [r|];
    [destruct (OTP.expiresAt r >? clock w); reflexivity | reflexivity].
Qed.

Lemma adminloginUser_keeps_users (req : Request.t) (w : World) :
  users (snd (adminloginUser services req w)) = users w.
Proof.
  unfold adminloginUser. unfold_monad.
  destruct (find _ (users w)) as [user|]; [|reflexivity].
  destruct (negb (User.role user =? "admin")%string); [reflexivity|].
  destruct (Services.argon2_verify services (User.password user)
              (Body.password (Request.body req))) as [[|]|e]; reflexivity.
Qed.

Lemma getAllUsers_keeps_users (req : Request.t) (w : World) :
  users (snd (getAllUsers services req w)) = users w.
Proof.
  unfold getAllUsers, getUserList.
  destruct (Services.verifyToken services (Request.authorization req));
    [|reflexivity].
  unfold_monad.
  destruct (find _ (users w)); [|reflexivity].
  destruct (List.length _ =? 0)%nat; reflexivity.
Qed.

(** X17: with unique identifiers in the user collection, no handler
    among resendOTP, loginUser, forgotPassword, resetPassword, deleteUser,
    changePassword, adminloginUser and getAllUsers adds or removes a user
    record or changes the identifier, email, role or verification flag of
    one: the accounts are the same, in the same order, after the request.
    resendOTP, forgotPassword, adminloginUser and getAllUsers leave the
    whole collection as it is. *)
Theorem handlers_keep_accounts (req : Request.t) (w : World) :
  NoDup (map User._id (users w)) ->
  let same (h : Request.t -> M unit) :=
    map account (users (snd (h req w))) = map account (users w) in
  same (resendOTP services) /\ same (loginUser services)
  /\ same (forgotPassword services) /\ same (resetPassword services)
  /\ same deleteUser /\ same (changePassword services)
  /\ same (adminloginUser services) /\ same (getAllUsers services)
  /\ users (snd (resendOTP services req w)) = users w
  /\ users (snd (forgotPassword services req w)) = users w
  /\ users (snd (adminloginUser services req w)) = users w
  /\ users (snd (getAllUsers services req w)) = users w.
Proof.
  intros Hnd same. subst same. cbv beta.
  rewrite resendOTP_keeps_users, forgotPassword_keeps_users,
    getAllUsers_keeps_users, adminloginUser_keeps_users.
  repeat split.
  - now apply loginUser_keeps_accounts.
  - now apply resetPassword_keeps_accounts.
  - apply deleteUser_keeps_accounts.
  - now apply changePassword_keeps_accounts.
Qed.

End Laws.

(** ** verifyOTP *)

Section VerifyOTP.

Variable verifyOTPService : string -> string -> M VerifiedInfo.

(** X18: every error [verifyOTP] throws is an ApiError with status 500,
    whatever its origin.  An error of the verification service keeps its
    message (or gets the fallback message when it has none), loses its
    status code, and is thrown before the handler has sent anything: the
    client receives it as a 500.  Once the service has accepted the code
    the 201 response is sent first, so an error thrown after that is a
    500 that follows a 201 already sent. *)
Theorem verifyOTP_failures_are_500 (otp : string) (req : Request.t) (w : World) :
  (forall e, fst (verifyOTP verifyOTPService otp req w) = Thrown e ->
             exists m, e = ApiError 500 m)
  /\ (forall e w1,
        verifyOTPService otp (Request.authorization req) w = (Thrown e, w1) ->
        verifyOTP verifyOTPService otp req w =
          (Thrown (ApiError 500
                     (Js.or_else (error_message e) "Failed to verify otp")),
           w1))
  /\ (forall code m w1,
        verifyOTPService otp (Request.authorization req) w
          = (Thrown (ApiError code m), w1) ->
        m <> "" ->
        verifyOTP verifyOTPService otp req w = (Thrown (ApiError 500 m), w1))
  /\ (forall info w1,
        verifyOTPService otp (Request.authorization req) w
          = (Returned info, w1) ->
        exists sent rest,
          Response.statusCode sent = 201
          /\ events (snd (verifyOTP verifyOTPService otp req w))
             = (events w1 ++ Responded sent :: rest)%list).
Proof.
  split; [|split; [|split]].
  - intros e. unfold verifyOTP.
    match goal with
    | |- context [match ?run with _ => _ end] => destruct run as [[[]|e0] w']
    end; cbn [fst]; [discriminate|].
    intros H. injection H as <-. eexists. reflexivity.
  - intros e w1 Hsvc. unfold verifyOTP. unfold_monad.
    rewrite Hsvc. reflexivity.
  - intros code m w1 Hsvc Hm. unfold verifyOTP. unfold_monad.
    rewrite Hsvc. cbn [error_message]. now rewrite or_else_message.
  - intros info w1 Hsvc. unfold verifyOTP. unfold_monad. rewrite Hsvc.
    cbn [users emit].
    destruct (find _ (users w1)) as [user|].
    + destruct (User.isVerified user); cbn [negb]; cbv beta iota.
      * do 2 eexists. split; cycle 1; [reflexivity | reflexivity].
      * do 2 eexists. split; cycle 1.
        -- cbn [snd events emit set_users]. rewrite <- app_assoc.
           reflexivity.
        -- reflexivity.
    + do 2 eexists. split; cycle 1; [reflexivity | reflexivity].
Qed.


End VerifyOTP.

(** ** Two more laws of loginUser and resetPassword *)

Section MoreLaws.

Variable services : Services.t.

(** X23: the unverified branch of [loginUser] has no cooldown.  It
    stores a fresh code for the email of the request whatever record is
    stored for it, expired or not: after the request the code found under
    the email is the new one, with the expiry of the new one. *)
Theorem loginUser_unverified_overwrites_code
    (req : Request.t) (w : World) (user : User.t) :
  find (fun u => (User.email u =? Body.email (Request.body req))%string) (users w)
    = Some user ->
  User.isDeleted user = false ->
  Services.validateUserLockStatus services user = Returned tt ->
  User.isVerified user = false ->
  let w' := snd (loginUser services req w) in
  let fresh :=
    {| OTP.email := Body.email (Request.body req);
       OTP.otp := Services.otp_code services (entropy w);
       OTP.expiresAt := clock w + Services.OTP_TTL services |} in
  find (fun o => (OTP.email o =? Body.email (Request.body req))%string) (otps w')
    = Some fresh
  /\ otps w' = upsert fresh (otps w)
  /\ emails (events w') =
       (emails (events w)
          ++ [{| Email.kind := OTPEmailVerification;
                 Email.recipient := Body.email (Request.body req);
                 Email.otp := Services.otp_code services (entropy w);
                 Email.name := User.name user |}])%list.
Proof.
  intros Hfind Hdel Hlock Hver w' fresh.
  assert (Hrun : otps w' = upsert fresh (otps w)
                 /\ events w' =
                      (events w
                         ++ [Responded
                               (unverified_response user
                                  (session_token services user));
                             EmailDispatched
                               {| Email.kind := OTPEmailVerification;
                                  Email.recipient := Body.email (Request.body req);
                                  Email.otp :=
                                    Services.otp_code services (entropy w);
                                  Email.name := User.name user |};
                             OtpSaved fresh])%list).
  { subst w'. unfold loginUser. unfold_monad.
    rewrite Hfind, Hdel, Hlock, Hver. cbn [negb]. cbv beta iota.
    cbn [snd otps events emit set_otps print draw clock entropy].
    rewrite <- !app_assoc. split; reflexivity. }
  destruct Hrun as [Hotps Hev]. split; [|split].
  - rewrite Hotps. apply (find_upsert_same fresh).
  - exact Hotps.
  - rewrite Hev.
    assert (Happ : forall es es', emails (es ++ es') = (emails es ++ emails es')%list).
    { induction es as [|e es IH]; intros es'; simpl; [reflexivity|].
      destruct e; rewrite ?IH; reflexivity. }
    rewrite Happ. reflexivity.
Qed.

(** X24: [resetPassword] writes to the user collection only for a token
    that verifies and carries a role, a non-empty new password, and an
    existing user of the token's email.  A token without a role, such as
    the register token, changes no password. *)
Theorem resetPassword_only_with_role (req : Request.t) (w : World) :
  users (snd (resetPassword services req w)) <> users w ->
  exists decoded user,
    Services.verifyToken services (Request.authorization req) = Returned decoded
    /\ Js.truthy (Payload.role decoded) = true
    /\ Js.truthy (Body.password (Request.body req)) = true
    /\ find (fun u => (User.email u =? Payload.email decoded)%string) (users w)
       = Some user.
Proof.
  unfold resetPassword. unfold_monad.
  destruct (Services.verifyToken services (Request.authorization req))
    as [decoded|e]; [|intros H; now elim H].
  destruct (Js.truthy (Payload.role decoded)) eqn:Hrole; cbn [negb];
    [|intros H; now elim H].
  destruct (Js.truthy (Body.password (Request.body req))) eqn:Hpw; cbn [negb];
    [|intros H; now elim H].
  cbn [users emit].
  destruct (find _ (users w)) as [user|] eqn:Hfind; [|intros H; now elim H].
  intros _. exists decoded, user. auto.
Qed.

End MoreLaws.

End ControllerLaws.

(* ===================================================================== *)
(** * More about the seeding routines                                     *)
(* ===================================================================== *)

Module SeedLaws.
Import Seed.
Import SeedFacts.

Lemma stored_app_absent (email : string) (us more : list User.t) :
  stored email us = None -> stored email (us ++ more) = stored email more.
Proof.
  unfold stored. induction us as [|u us IH]; simpl; [reflexivity|].
  destruct (User.email u =? email)%string; [discriminate | exact IH].
Qed.

Section Laws.

Variable services : Services.t.

Lemma seedAdmin_creates (d : AdminData.t) (w : World) :
  exists w' created,
    seedAdmin services d w = (Returned tt, w')
    /\ users w' = (users w ++ created)%list
    /\ (List.length created <= 1)%nat
    /\ forall u, In u created -> seeded_from services d u.
Proof.
  destruct (stored (AdminData.email d) (users w)) eqn:E.
  - eexists. exists []. split; [|split; [|split]].
    + apply seedAdmin_existing. rewrite E. discriminate.
    + cbn [users print]. now rewrite app_nil_r.
    + cbn. lia.
    + intros u [].
  - eexists. eexists. split; [|split; [|split]].
    + apply (seedAdmin_missing services d w E).
    + cbn [users print emit set_users]. reflexivity.
    + cbn. lia.
    + intros u [<-|[]]. do 2 eexists. reflexivity.
Qed.

(** The two rounds of a run of [seedSuperAdmin]. *)
Lemma seedSuperAdmin_rounds (w : World) :
  exists c1 c2,
    users (snd (seedSuperAdmin services w)) = (users w ++ c1 ++ c2)%list
    /\ (List.length c1 <= 1)%nat /\ (List.length c2 <= 1)%nat
    /\ (forall u, In u c1 -> seeded_from services admin u)
    /\ (forall u, In u c2 -> seeded_from services admin2 u).
Proof.
  destruct (seedAdmin_creates admin w) as [w1 [c1 [Hrun1 [Hus1 [Hlen1 Hdoc1]]]]].
  destruct (seedAdmin_creates admin2 w1)
    as [w2 [c2 [Hrun2 [Hus2 [Hlen2 Hdoc2]]]]].
  exists c1, c2. split; [|auto].
  rewrite seedSuperAdmin_unfold, Hrun1, Hrun2. cbn [snd].
  rewrite Hus2, Hus1. now rewrite app_assoc.
Qed.

(** A document made for a seed admin is an admin, is not deleted, and
    holds the hash of the seed password. *)
Lemma seeded_from_admin (d : AdminData.t) (u : User.t) :
  d = admin \/ d = admin2 ->
  seeded_from services d u ->
  User.role u = "admin"
  /\ User.isDeleted u = false
  /\ exists salt,
       User.password u = Services.argon2_hash services salt "1qazxsw2".
Proof.
  intros Hd [salt [id ->]].
  destruct Hd as [-> | ->]; repeat split; exists salt; reflexivity.
Qed.

(** X20: what [seedSuperAdmin] writes.  It appends at most two documents
    and touches no stored one; every document it creates is made from
    one of the two seed admins, has the role admin, is not deleted, and
    holds the argon2 hash of the seed password in its password field,
    not the password itself. *)
Theorem seedSuperAdmin_created_documents (w : World) :
  exists created,
    users (snd (seedSuperAdmin services w)) = (users w ++ created)%list
    /\ (List.length created <= 2)%nat
    /\ forall u, In u created ->
         (seeded_from services admin u \/ seeded_from services admin2 u)
         /\ User.role u = "admin"
         /\ User.isDeleted u = false
         /\ exists salt,
              User.password u = Services.argon2_hash services salt "1qazxsw2".
Proof.
  destruct (seedSuperAdmin_rounds w) as [c1 [c2 [Hus [Hl1 [Hl2 [Hd1 Hd2]]]]]].
  exists (c1 ++ c2)%list. split; [exact Hus|]. split.
  - rewrite length_app. lia.
  - intros u Hin. apply in_app_or in Hin. destruct Hin as [Hin|Hin].
    + split; [left; now apply Hd1|].
      apply (seeded_from_admin admin); [now left | now apply Hd1].
    + split; [right; now apply Hd2|].
      apply (seeded_from_admin admin2); [now right | now apply Hd2].
Qed.

(** X21: a seeded admin can log in.  When the email of a seed admin is
    not stored before the run and hashes verify their password, after
    [seedSuperAdmin] the admin login with that email and the seed
    password is answered with the 200 response. *)
Theorem seedSuperAdmin_then_admin_login
    (w : World) (d : AdminData.t) (login : Request.t) :
  Controller.hash_verifies services ->
  d = admin \/ d = admin2 ->
  stored (AdminData.email d) (users w) = None ->
  Body.email (Request.body login) = AdminData.email d ->
  Body.password (Request.body login) = "1qazxsw2" ->
  let w1 := snd (seedSuperAdmin services w) in
  exists r,
    Controller.adminloginUser services login w1
      = (Returned tt, emit (Responded r) w1)
    /\ Response.statusCode r = 200.
Proof.
  intros Hhash Hd Habsent Hemail Hpw w1.
  destruct (seedSuperAdmin_rounds w) as [c1 [c2 [Hus [_ [_ [Hd1 Hd2]]]]]].
  set (created := (c1 ++ c2)%list) in *.
  assert (Hdocs : forall u, In u created ->
            User.role u = "admin"
            /\ User.isDeleted u = false
            /\ exists salt,
                 User.password u
                   = Services.argon2_hash services salt "1qazxsw2").
  { intros u Hin. apply in_app_or in Hin. destruct Hin as [Hin|Hin].
    - apply (seeded_from_admin admin); [now left | now apply Hd1].
    - apply (seeded_from_admin admin2); [now right | now apply Hd2]. }
  destruct (seedSuperAdmin_run services w)
    as [w' [created' [Hrun [Hus' [Hst1 [Hst2 _]]]]]].
  assert (Hstored : stored (AdminData.email d) (users w1) <> None).
  { subst w1. rewrite Hrun. cbn [snd]. destruct Hd as [-> | ->]; assumption. }
  fold w1 in Hus. rewrite Hus in Hstored.
  rewrite (stored_app_absent _ _ _ Habsent) in Hstored.
  destruct (stored (AdminData.email d) created) as [u|] eqn:Hu;
    [|now elim Hstored].
  assert (Hin : In u created) by (now apply find_some in Hu).
  destruct (Hdocs u Hin) as [Hrole [_ [salt Hhashp]]].
  destruct (ControllerFacts.adminloginUser_accepts services login w1 u)
    as [r [Hlogin [Hcode _]]].
  - rewrite Hemail, Hus. fold (stored (AdminData.email d) (users w ++ created)).
    now rewrite (stored_app_absent _ _ _ Habsent).
  - exact Hrole.
  - rewrite Hpw, Hhashp. apply Hhash.
  - exists r. split; [exact Hlogin | exact Hcode].
Qed.

End Laws.

(** X22: the three settings routines.  Each one creates its dummy
    document only in an empty collection, leaves a collection that holds
    a document as it is, touches no other collection, and is idempotent:
    a second run changes nothing. *)
Theorem seedSettings_idempotent (s : Settings) :
  seedPrivacy (seedPrivacy s) = seedPrivacy s
  /\ seedTerms (seedTerms s) = seedTerms s
  /\ seedAbout (seedAbout s) = seedAbout s
  /\ (privacy s <> [] -> seedPrivacy s = s)
  /\ (terms s <> [] -> seedTerms s = s)
  /\ (about s <> [] -> seedAbout s = s)
  /\ (privacy s = [] -> privacy (seedPrivacy s) = [dummyPrivacy])
  /\ (terms s = [] -> terms (seedTerms s) = [dummyTerms])
  /\ (about s = [] -> about (seedAbout s) = [dummyAbout])
  /\ terms (seedPrivacy s) = terms s /\ about (seedPrivacy s) = about s
  /\ privacy (seedTerms s) = privacy s /\ about (seedTerms s) = about s
  /\ privacy (seedAbout s) = privacy s /\ terms (seedAbout s) = terms s.
Proof.
  destruct s as [[|p ps] [|t ts] [|a bs]]; cbn;
    repeat split; intros H; try reflexivity; now elim H.
Qed.

End SeedLaws.

(* ===================================================================== *)
(** * The laws at work on the concrete deployment                         *)
(* ===================================================================== *)

Module LawsAtWork.
Import Controller.
Import ControllerLaws.

Lemma demo_hash_verifies : hash_verifies Demo.services.
Proof.
  intros salt plain. cbn. now rewrite String.eqb_refl.
Qed.

Lemma demo_ids_unique : NoDup (map User._id [Demo.ada; Demo.grace]).
Proof.
  repeat constructor; cbn; intuition discriminate.
Qed.

Lemma resendOTP_then_cooldown_witness :
  let req := Demo.request (Demo.body "" "") (Demo.query "" "" "" "")
               "register-token" None in
  let w := Demo.world [Demo.ada] [] 1000 in
  let stored := {| OTP.email := "ada@example.com"; OTP.otp := "480";
                   OTP.expiresAt := 61000 |} in
  let w2 := Demo.world [Demo.ada] [stored] 31000 in
  otps (snd (resendOTP Demo.services req w)) = [stored]
  /\ resendOTP Demo.services req w2 =
       (Thrown (ApiError 403 "You can't request another OTP before 30 seconds."),
        w2).
Proof.
  intros req w stored w2.
  destruct (resendOTP_then_cooldown Demo.services req w Demo.registerPayload)
    as [_ Hnext].
  - reflexivity.
  - intros r Hr. discriminate Hr.
  - split; [reflexivity|].
    destruct (Hnext w2) as [Hrun _].
    + reflexivity.
    + cbn. lia.
    + exact Hrun.
Defined.

Lemma forgotPassword_shares_cooldown_witness :
  let req := Demo.request (Demo.body "ada@example.com" "")
               (Demo.query "" "" "" "") "register-token" None in
  let w := Demo.world [Demo.ada] [Demo.pendingCode] 15500 in
  forgotPassword Demo.services req w = resendOTP Demo.services req w.
Proof.
  intros req w.
  destruct (forgotPassword_shares_cooldown Demo.services req w
              Demo.registerPayload Demo.ada Demo.pendingCode) as [Hsame _].
  - reflexivity.
  - reflexivity.
  - reflexivity.
  - reflexivity.
  - reflexivity.
  - reflexivity.
  - exact Hsame.
Defined.

Lemma loginUser_verified_account_witness :
  let wrong := Demo.request (Demo.body "ada@example.com" "guess")
                 (Demo.query "" "" "" "") "" None in
  let right :=
    Demo.request
      {| Body.email := "ada@example.com"; Body.password := "secret";
         Body.fcmToken := "device-7";
         Body.oldPassword := ""; Body.newPassword := "" |}
      (Demo.query "" "" "" "") "" None in
  let w := Demo.world [Demo.ada; Demo.grace] [] 1000 in
  loginUser Demo.services wrong w = (Thrown (ApiError 401 "Wrong password!"), w)
  /\ exists w' sent,
       loginUser Demo.services right w = (Returned tt, w')
       /\ events w' =
            [Responded sent; UserSaved (User.with_fcmToken "device-7" Demo.ada)]
       /\ Response.statusCode sent = 200
       /\ map User.fcmToken (users w) = [""; ""]
       /\ map User.fcmToken (users w') = ["device-7"; ""]
       /\ map User.password (users w') = map User.password (users w).
Proof.
  intros wrong right w. split.
  - exact (proj1 (loginUser_verified_account Demo.services wrong w Demo.ada
                    eq_refl eq_refl eq_refl eq_refl) eq_refl).
  - destruct (proj2 (loginUser_verified_account Demo.services right w Demo.ada
                       eq_refl eq_refl eq_refl eq_refl) eq_refl)
      as [w' [sent [image [Hrun [Hev [Hcode [_ [Hus _]]]]]]]].
    exists w', sent. split; [exact Hrun|]. split; [exact Hev|].
    split; [exact Hcode|]. split; [reflexivity|].
    rewrite Hus. split; reflexivity.
Defined.

Lemma deleteUser_only_own_admin_account_witness :
  let req := Demo.request (Demo.body "" "") (Demo.query "u1" "" "" "") ""
               (Some Demo.sessionPayload) in
  let w := Demo.world [Demo.ada; Demo.grace] [] 1000 in
  exists requester target,
    Request.user req = Some requester
    /\ Payload.role requester = "admin"
    /\ User._id target = Payload.id requester.
Proof.
  intros req w.
  destruct (deleteUser_only_own_admin_account req w)
    as [requester [target [Huser [Hid [Hrole [Hfind _]]]]]].
  - intros H. vm_compute in H. discriminate H.
  - exists requester, target. split; [exact Huser|]. split; [exact Hrole|].
    apply find_some in Hfind. destruct Hfind as [_ H].
    apply String.eqb_eq in H. now rewrite Hid.
Defined.


Lemma changePassword_then_login_witness :
  let req := Demo.request (Demo.passwords "secret" "next")
               (Demo.query "" "" "" "") "" (Some Demo.sessionPayload) in
  let login := Demo.request (Demo.body "ada@example.com" "next")
                 (Demo.query "" "" "" "") "" None in
  let w := Demo.world [Demo.ada; Demo.grace] [] 1000 in
  exists w2 sent,
    loginUser Demo.services login (snd (changePassword Demo.services req w))
      = (Returned tt, w2)
    /\ In (Responded sent) (events w2)
    /\ Response.statusCode sent = 200.
Proof.
  intros req login w.
  destruct (changePassword_then_login Demo.services req login w
              Demo.sessionPayload Demo.ada) as [_ Hlogin].
  - exact demo_hash_verifies.
  - exact demo_ids_unique.
  - reflexivity.
  - reflexivity.
  - reflexivity.
  - reflexivity.
  - reflexivity.
  - reflexivity.
  - reflexivity.
  - reflexivity.
  - reflexivity.
  - reflexivity.
  - exact Hlogin.
Defined.

Lemma resetPassword_then_login_witness :
  let req := Demo.request (Demo.body "" "fresh") (Demo.query "" "" "" "")
               "session-token" None in
  let login := Demo.request (Demo.body "ada@example.com" "fresh")
                 (Demo.query "" "" "" "") "" None in
  let w := Demo.world [Demo.ada; Demo.grace] [] 1000 in
  users (snd (resetPassword Demo.services req w))
    = [User.with_password "argon2$fresh" Demo.ada; Demo.grace]
  /\ exists w2 sent,
       loginUser Demo.services login (snd (resetPassword Demo.services req w))
         = (Returned tt, w2)
       /\ In (Responded sent) (events w2)
       /\ Response.statusCode sent = 200.
Proof.
  intros req login w.
  destruct (resetPassword_then_login Demo.services req login w
              Demo.sessionPayload Demo.ada) as [[_ [Hus _]] Hlogin].
  - exact demo_hash_verifies.
  - exact demo_ids_unique.
  - reflexivity.
  - reflexivity.
  - reflexivity.
  - reflexivity.
  - split; [exact Hus|].
    exact (Hlogin eq_refl eq_refl eq_refl eq_refl eq_refl).
Defined.

Lemma getAllUsers_page_past_the_end_witness :
  let req := Demo.request (Demo.body "" "") (Demo.query "" "4" "10" "user")
               "session-token" None in
  let w := Demo.world (Demo.ada :: map Demo.member (seq 0 25)) [] 1000 in
  responses (events (snd (getAllUsers Demo.services req w))) =
    [{| Response.statusCode := 204;
        Response.success := true;
        Response.message := "No user found based on your search.";
        Response.data := JArr [];
        Response.pagination := None |}].
Proof.
  intros req w.
  rewrite (getAllUsers_page_past_the_end Demo.services req w
             Demo.sessionPayload Demo.ada).
  - reflexivity.
  - reflexivity.
  - reflexivity.
  - vm_compute. discriminate.
  - reflexivity.
  - vm_compute. discriminate.
Defined.

Lemma getAllUsers_page_within_range_witness :
  let req := Demo.request (Demo.body "" "") (Demo.query "" "3" "10" "user")
               "session-token" None in
  let w := Demo.world (Demo.ada :: map Demo.member (seq 0 25)) [] 1000 in
  exists r items pg,
    getAllUsers Demo.services req w = (Returned tt, emit (Responded r) w)
    /\ Response.data r = JArr (map list_entry items)
    /\ Z.of_nat (List.length items) = 5
    /\ Response.pagination r = Some pg
    /\ Pagination.prevPage pg = 2
    /\ Pagination.nextPage pg = 1.
Proof.
  intros req w.
  destruct (getAllUsers_page_within_range Demo.services req w
              Demo.sessionPayload Demo.ada)
    as [r [items [pg [Hrun [_ [Hdata [_ [Hlen [Hpg [Htotal [_ [_ [Hprev
         [Hnext _]]]]]]]]]]]]]].
  - reflexivity.
  - reflexivity.
  - vm_compute. discriminate.
  - reflexivity.
  - vm_compute. discriminate.
  - vm_compute. discriminate.
  - reflexivity.
  - exists r, items, pg. split; [exact Hrun|]. split; [exact Hdata|].
    split; [exact Hlen|]. split; [exact Hpg|]. split; [exact Hprev|].
    rewrite Hnext, Htotal. reflexivity.
Defined.

Lemma parseInt_or_reads_decimal_witness :
  Js.number_to_string 3 = "3"
  /\ Js.parseInt_or "3" 1 = 3
  /\ Js.parseInt_or "" 10 = 10.
Proof.
  destruct (parseInt_or_reads_decimal 3 1) as [Hread _].
  - vm_compute. split; discriminate.
  - destruct (parseInt_or_reads_decimal 0 10) as [_ [Hempty _]].
    + vm_compute. split; discriminate.
    + split; [reflexivity|]. split; [exact Hread | exact Hempty].
Defined.

Lemma handlers_keep_accounts_witness :
  let req := Demo.request (Demo.body "ada@example.com" "secret")
               (Demo.query "u1" "" "" "") "session-token"
               (Some Demo.sessionPayload) in
  let w := Demo.world [Demo.ada; Demo.grace] [] 1000 in
  map account (users (snd (loginUser Demo.services req w)))
    = [account Demo.ada; account Demo.grace]
  /\ map account (users (snd (deleteUser req w)))
     = [account Demo.ada; account Demo.grace].
Proof.
  intros req w.
  destruct (handlers_keep_accounts Demo.services req w demo_ids_unique)
    as [_ [Hlogin [_ [_ [Hdelete _]]]]].
  split; [exact Hlogin | exact Hdelete].
Defined.


Lemma loginUser_unverified_overwrites_code_witness :
  let req := Demo.request (Demo.body "ada@example.com" "")
               (Demo.query "" "" "" "") "" None in
  let pending := User.with_isVerified false Demo.ada in
  let w := Demo.world [pending] [Demo.pendingCode] 15500 in
  (OTP.expiresAt Demo.pendingCode >? clock w) = true
  /\ otps (snd (loginUser Demo.services req w)) =
       [{| OTP.email := "ada@example.com"; OTP.otp := "480";
           OTP.expiresAt := 75500 |}].
Proof.
  intros req pending w. split; [reflexivity|].
  destruct (loginUser_unverified_overwrites_code Demo.services req w pending)
    as [_ [Hotps _]].
  - reflexivity.
  - reflexivity.
  - reflexivity.
  - reflexivity.
  - exact Hotps.
Defined.

Lemma resetPassword_only_with_role_witness :
  let req := Demo.request (Demo.body "" "fresh") (Demo.query "" "" "" "")
               "session-token" None in
  let w := Demo.world [Demo.ada] [] 1000 in
  exists decoded,
    Services.verifyToken Demo.services (Request.authorization req)
      = Returned decoded
    /\ Js.truthy (Payload.role decoded) = true.
Proof.
  intros req w.
  destruct (resetPassword_only_with_role Demo.services req w)
    as [decoded [user [Htok [Hrole _]]]].
  - intros H. vm_compute in H. discriminate H.
  - exists decoded. split; [exact Htok | exact Hrole].
Defined.

Lemma seedSuperAdmin_then_admin_login_witness :
  let login := Demo.request (Demo.body "showershareny@gmail.com" "1qazxsw2")
                 (Demo.query "" "" "" "") "" None in
  let w := Demo.world [Demo.ada] [] 1000 in
  exists r,
    adminloginUser Demo.services login (snd (Seed.seedSuperAdmin Demo.services w))
      = (Returned tt,
         emit (Responded r) (snd (Seed.seedSuperAdmin Demo.services w)))
    /\ Response.statusCode r = 200.
Proof.
  intros login w.
  apply (SeedLaws.seedSuperAdmin_then_admin_login Demo.services w Seed.admin
           login).
  - exact demo_hash_verifies.
  - left. reflexivity.
  - reflexivity.
  - reflexivity.
  - reflexivity.
Defined.

End LawsAtWork.
